(** * Basic Local AI: the conversation log and the generation gateway

    A shallow embedding of [app/main.py].  Python values that the handlers
    touch are modelled as they are used: decoded JSON documents as [json],
    the stored dictionaries as records living in a heap of mutable objects
    (the retention loop of [add_conversation] rewrites their [id] in place
    and the caller keeps a reference to one of them), the storage file by
    what reading it yields, and exceptions by an error monad with state.
    The [print] calls are left out; where evaluating the argument of one can
    raise ([prompt[:50]]) the evaluation is kept. *)

From Stdlib Require Import ZArith QArith String Ascii List Lia.
From stdpp Require Import base list strings pretty.

Local Open Scope string_scope.
Local Open Scope list_scope.
Local Open Scope Z_scope.
Local Set Warnings "-register-all".

(** ** Python text *)

(** A [str] is a sequence of characters; the model keeps the code points
    below 256, one [ascii] each, so [len] counts characters. *)
Definition len_str (s : string) : Z := Z.of_nat (String.length s).

(** [str.isspace] on one character: TAB..CR, FS..US, SPACE, NEL and NBSP are
    the white-space code points below 256. *)
Definition isspace (c : ascii) : bool :=
  let n := nat_of_ascii c in
  ((9 <=? n) && (n <=? 13) || (28 <=? n) && (n <=? 31)
   || (n =? 32) || (n =? 133) || (n =? 160))%nat.

Fixpoint lstrip (s : string) : string :=
  match s with
  | EmptyString => EmptyString
  | String c rest => if isspace c then lstrip rest else s
  end.

Fixpoint rstrip (s : string) : string :=
  match s with
  | EmptyString => EmptyString
  | String c rest =>
      match rstrip rest with
      | EmptyString => if isspace c then EmptyString else String c EmptyString
      | kept => String c kept
      end
  end.

(** [s.strip()] *)
Definition strip (s : string) : string := rstrip (lstrip s).

(** ** Python sequences *)

Definition len {A} (l : list A) : Z := Z.of_nat (length l).

(** One bound of a slice [l[lo:hi]]: a missing bound takes its default, a
    negative one counts from the end, and both are clamped to [0..len]. *)
Definition slice_bound (n default : Z) (i : option Z) : Z :=
  match i with
  | None => default
  | Some i => if i <? 0 then Z.max (i + n) 0 else Z.min i n
  end.

(** [l[lo:hi]] with the default step. *)
Definition py_slice {A} (lo hi : option Z) (l : list A) : list A :=
  let n := len l in
  let a := slice_bound n 0 lo in
  let b := slice_bound n n hi in
  take (Z.to_nat (b - a)) (drop (Z.to_nat a) l).

(** [enumerate(l)], counting from [i]. *)
Fixpoint enumerate_from {A} (i : Z) (l : list A) : list (Z * A) :=
  match l with
  | [] => []
  | x :: rest => (i, x) :: enumerate_from (i + 1) rest
  end.

Definition enumerate {A} (l : list A) : list (Z * A) := enumerate_from 0 l.

(** ** Decoded JSON *)

(** What [json.load], [request.get_json] and [response.json] hand back, and
    what [jsonify] and [requests.post(json=...)] take.  A [JObj] is a Python
    [dict] listed in insertion order, keys distinct. *)
Inductive json : Type :=
| JNull
| JBool (b : bool)
| JNum (n : Z)
| JFloat (q : Q)
| JStr (s : string)
| JArr (items : list json)
| JObj (fields : list (string * json)).

(** Truth value of a Python object, as [or] tests it. *)
Definition truthy (v : json) : bool :=
  match v with
  | JNull => false
  | JBool b => b
  | JNum n => negb (n =? 0)
  | JFloat q => negb (Qnum q =? 0)
  | JStr s => negb (String.eqb s "")
  | JArr items => match items with [] => false | _ => true end
  | JObj fields => match fields with [] => false | _ => true end
  end.

(** [type(v).__name__] *)
Definition type_name (v : json) : string :=
  match v with
  | JNull => "NoneType"
  | JBool _ => "bool"
  | JNum _ => "int"
  | JFloat _ => "float"
  | JStr _ => "str"
  | JArr _ => "list"
  | JObj _ => "dict"
  end.

Fixpoint dict_lookup (key : string) (fields : list (string * json)) : option json :=
  match fields with
  | [] => None
  | (k, v) :: rest => if String.eqb k key then Some v else dict_lookup key rest
  end.

(** ** Exceptions and the state of a request *)

(** An exception is observed only through [str(e)]. *)
Inductive exn : Type := Exception (description : string).

Definition str_exn (e : exn) : string :=
  match e with Exception d => d end.

Definition AttributeError (v : json) (attr : string) : exn :=
  Exception ("'" +:+ type_name v +:+ "' object has no attribute '" +:+ attr +:+ "'").

Definition TypeError (description : string) : exn := Exception description.

Inductive result (A : Type) : Type :=
| Ok (a : A)
| Raise (e : exn).
Arguments Ok {A} a.
Arguments Raise {A} e.

(** One stored conversation, the dictionary built in [add_conversation].
    The prompt is whatever JSON value the request carried. *)
Module Conv.
Record t : Type := mk {
  id : Z;
  timestamp : string;
  prompt : json;
  response : string;
  model : string;
  response_length : Z
}.

(** [conv["id"] = v] *)
Definition set_id (v : Z) (c : t) : t :=
  mk v (timestamp c) (prompt c) (response c) (model c) (response_length c).

#[global] Instance inhabited : Inhabited t :=
  populate (mk 0 "" JNull "" "" 0).
End Conv.

Definition json_of_conv (c : Conv.t) : json :=
  JObj [("id", JNum (Conv.id c));
        ("timestamp", JStr (Conv.timestamp c));
        ("prompt", Conv.prompt c);
        ("response", JStr (Conv.response c));
        ("model", JStr (Conv.model c));
        ("response_length", JNum (Conv.response_length c))].

(** The storage file [/data/conversations.json], by what reading it does.
    Its content, when it decodes, is a list of records, the shape
    [save_conversations] writes; a file edited by hand into JSON of another
    shape (null, an object, a list of numbers) is outside these states. *)
Inductive file_state : Type :=
| Missing                      (* os.path.exists is False *)
| Unreadable (e : exn)         (* open or read raises e *)
| Malformed (e : exn)          (* json.load raises e *)
| Stored (cs : list Conv.t).   (* json.load returns this list of records *)

(** What rewriting the file does: both steps succeed; [open(.., 'w')] raises
    and the file is untouched; or the file is truncated and [json.dump]
    raises, leaving a partial document that no longer decodes. *)
Inductive write_outcome : Type :=
| Written
| OpenFails (e : exn)
| DumpFails (e : exn) (left_undecodable : exn).

(** One call [requests.post(url, json=payload, timeout=timeout)]. *)
Record post_call : Type := {
  url : string;
  payload : json;
  timeout : Z
}.

(** What the call does: it raises (timeout, connection error), or returns a
    response with a status code whose [.json()] raises or yields a value. *)
Inductive backend_outcome : Type :=
| PostRaises (e : exn)
| Responds (status_code : Z) (decoded : result json).

(** What the surroundings answer during one request: the clock, the
    inference backend and the disk. *)
Record env : Type := {
  now_isoformat : string;
  backend : post_call -> backend_outcome;
  disk : write_outcome
}.

(** A reference to a dictionary: its index in the heap. *)
Abbreviation loc := nat (only parsing).

Record mem : Type := {
  heap : list Conv.t;          (* the dictionaries alive in this request *)
  file : file_state;           (* the storage file *)
  posts : list post_call       (* calls made to the backend, oldest first *)
}.

Definition set_heap (h : list Conv.t) (m : mem) : mem :=
  {| heap := h; file := file m; posts := posts m |}.
Definition set_file (f : file_state) (m : mem) : mem :=
  {| heap := heap m; file := f; posts := posts m |}.
Definition add_post (c : post_call) (m : mem) : mem :=
  {| heap := heap m; file := file m; posts := posts m ++ [c] |}.

(** Computations that read and write [mem] and may raise. *)
Definition M (A : Type) : Type := mem -> result A * mem.

Definition ret {A} (a : A) : M A := fun m => (Ok a, m).
Definition raise {A} (e : exn) : M A := fun m => (Raise e, m).
Definition bind {A B} (c : M A) (k : A -> M B) : M B :=
  fun m => match c m with
           | (Ok a, m') => k a m'
           | (Raise e, m') => (Raise e, m')
           end.
Definition lift {A} (r : result A) : M A := fun m => (r, m).

(** [try: body  except Exception as e: handler] *)
Definition try_except {A} (body : M A) (handler : exn -> M A) : M A :=
  fun m => match body m with
           | (Ok a, m') => (Ok a, m')
           | (Raise e, m') => handler e m'
           end.

Notation "'let*' x ':=' c 'in' k" := (bind c (fun x => k))
  (at level 10, x pattern, c at level 100, k at level 200).

(** [for x in l: body(x)] *)
Fixpoint for_each {A} (l : list A) (body : A -> M unit) : M unit :=
  match l with
  | [] => ret tt
  | x :: rest => let* _ := body x in for_each rest body
  end.

(** *** Dictionaries in the heap *)

Definition new_dict (c : Conv.t) : M loc :=
  fun m => (Ok (length (heap m)), set_heap (heap m ++ [c]) m).

Definition deref (h : list Conv.t) (l : loc) : Conv.t := h !!! l.

Definition read_dict (l : loc) : M Conv.t :=
  fun m => (Ok (deref (heap m) l), m).

(** [conv["id"] = v] through the reference [l]. *)
Definition assign_id (l : loc) (v : Z) : M unit :=
  fun m => (Ok tt, set_heap (alter (Conv.set_id v) l (heap m)) m).

(** *** The storage file *)

Definition CONVERSATIONS_FILE : string := "/data/conversations.json".

Definition os_path_exists : M bool :=
  fun m => (Ok (match file m with Missing => false | _ => true end), m).

(** [with open(CONVERSATIONS_FILE, 'r') as f: json.load(f)]: every decoded
    record is a fresh dictionary. *)
Definition open_json_load : M (list loc) :=
  fun m =>
    match file m with
    | Missing =>
        (Raise (Exception ("[Errno 2] No such file or directory: '"
                           +:+ CONVERSATIONS_FILE +:+ "'")), m)
    | Unreadable e => (Raise e, m)
    | Malformed e => (Raise e, m)
    | Stored cs =>
        (Ok (seq (length (heap m)) (length cs)), set_heap (heap m ++ cs) m)
    end.

(** [with open(CONVERSATIONS_FILE, 'w') as f: json.dump(conversations, f)] *)
Definition open_json_dump (w : write_outcome) (conversations : list loc) : M unit :=
  fun m =>
    match w with
    | Written => (Ok tt, set_file (Stored (deref (heap m) <$> conversations)) m)
    | OpenFails e => (Raise e, m)
    | DumpFails e e' => (Raise e, set_file (Malformed e') m)
    end.

(** ** The conversation log *)

Definition load_conversations : M (list loc) :=
  try_except
    (let* present := os_path_exists in
     if present then open_json_load else ret [])
    (fun _ => ret []).

Definition save_conversations (w : write_outcome) (conversations : list loc) : M bool :=
  try_except
    (let* _ := open_json_dump w conversations in ret true)
    (fun _ => ret false).

Definition add_conversation (ev : env) (prompt : json) (response model_name : string)
  : M (option loc) :=
  let* conversations := load_conversations in
  let* conversation :=
    new_dict {| Conv.id := len conversations + 1;
                Conv.timestamp := now_isoformat ev;
                Conv.prompt := prompt;
                Conv.response := response;
                Conv.model := model_name;
                Conv.response_length := len_str response |} in
  let conversations := conversations ++ [conversation] in
  let* conversations :=
    if 100 <? len conversations then
      let conversations := py_slice (Some (-100)) None conversations in
      let* _ := for_each (enumerate conversations)
                  (fun '(i, conv) => assign_id conv (i + 1)) in
      ret conversations
    else ret conversations in
  let* saved := save_conversations (disk ev) conversations in
  if saved then ret (Some conversation) else ret None.

(** ** The HTTP handlers *)

(** The settings read from the process environment at start-up. *)
Record config : Type := {
  OLLAMA_HOST : string;
  MODEL_NAME : string
}.

(** A handler's answer: the document given to [jsonify] and the status. *)
Record reply : Type := {
  body : json;
  status : Z
}.

Definition jsonify (fields : list (string * json)) : reply :=
  {| body := JObj fields; status := 200 |}.

Definition jsonify_status (fields : list (string * json)) (code : Z) : reply :=
  {| body := JObj fields; status := code |}.

(** [v.get(key, default)] *)
Definition get_method (v : json) (key : string) (default : json) : result json :=
  match v with
  | JObj fields =>
      Ok (match dict_lookup key fields with Some x => x | None => default end)
  | _ => Raise (AttributeError v "get")
  end.

(** [v[:50]]: strings and lists are cut, other values raise.  For a [dict]
    the text is the one of CPython before 3.12, where a slice is not
    hashable; later versions raise a [KeyError] at the same place. *)
Definition slice_50 (v : json) : result json :=
  match v with
  | JStr s => Ok (JStr (substring 0 50 s))
  | JArr items => Ok (JArr (take 50 items))
  | JObj _ => Raise (TypeError "unhashable type: 'slice'")
  | _ => Raise (TypeError ("'" +:+ type_name v +:+ "' object is not subscriptable"))
  end.

(** [v.strip()] *)
Definition strip_method (v : json) : result string :=
  match v with
  | JStr s => Ok (strip s)
  | _ => Raise (AttributeError v "strip")
  end.

(** [requests.post]: the call goes out, then raises or returns. *)
Definition requests_post (ev : env) (c : post_call) : M (Z * result json) :=
  fun m =>
    match backend ev c with
    | PostRaises e => (Raise e, add_post c m)
    | Responds status_code decoded => (Ok (status_code, decoded), add_post c m)
    end.

Definition error_reply (message : string) (code : Z) : reply :=
  jsonify_status [("status", JStr "error"); ("message", JStr message)] code.

(** [POST /generate]; [get_json] is what [request.get_json()] does.  Of the
    log line [print(f"...{prompt[:50]}...")] the slice is kept, which raises
    on a prompt that cannot be subscripted; writing the line itself succeeds
    for the text of the model, whose characters lie below code point 256. *)
Definition generate_text (cfg : config) (ev : env) (get_json : result json) : M reply :=
  try_except
    (let* parsed := lift get_json in
     let data := if truthy parsed then parsed else JObj [] in
     let* prompt := lift (get_method data "prompt" (JStr "Hello, how are you?")) in
     let* _ := lift (slice_50 prompt) in
     let url := OLLAMA_HOST cfg +:+ "/api/generate" in
     let payload :=
       JObj [("model", JStr (MODEL_NAME cfg));
             ("prompt", prompt);
             ("stream", JBool false);
             ("options", JObj [("temperature", JFloat (7 # 10))])] in
     let* response :=
       requests_post ev {| url := url; payload := payload; timeout := 180 |} in
     let '(status_code, response_json) := response in
     if status_code =? 200 then
       let* result := lift response_json in
       let* text := lift (get_method result "response" (JStr "")) in
       let* generated_text := lift (strip_method text) in
       let* conversation :=
         add_conversation ev prompt generated_text (MODEL_NAME cfg) in
       let* conversation_id :=
         match conversation with
         | Some l => let* c := read_dict l in ret (JNum (Conv.id c))
         | None => ret JNull
         end in
       ret (jsonify [("status", JStr "success");
                     ("generated_text", JStr generated_text);
                     ("model", JStr (MODEL_NAME cfg));
                     ("conversation_id", conversation_id)])
     else
       ret (error_reply ("Ollama API error: " +:+ pretty status_code) 500))
    (fun e => ret (error_reply (str_exn e) 500)).

(** [GET /health] *)
Definition health (cfg : config) : M reply :=
  let* conversations := load_conversations in
  ret (jsonify [("status", JStr "healthy");
                ("service", JStr "Basic Local AI");
                ("model", JStr (MODEL_NAME cfg));
                ("total_conversations", JNum (len conversations));
                ("storage_file", JStr CONVERSATIONS_FILE)]).

(** One query parameter read with [request.args.get(name, type=int,
    default=d)]: missing, present but not an integer, or an integer. *)
Inductive query_arg : Type :=
| ArgMissing
| ArgNotInt
| ArgInt (z : Z).

Definition args_get (a : query_arg) (default : Z) : Z :=
  match a with
  | ArgInt z => z
  | _ => default
  end.

Definition read_dicts (ls : list loc) : M (list Conv.t) :=
  fun m => (Ok (deref (heap m) <$> ls), m).

(** [GET /conversations] *)
Definition get_conversations (limit_arg offset_arg : query_arg) : M reply :=
  let* conversations := load_conversations in
  let limit := args_get limit_arg 20 in
  let offset := args_get offset_arg 0 in
  let paginated_conversations :=
    py_slice (Some offset) (Some (offset + limit)) conversations in
  let* page := read_dicts paginated_conversations in
  ret (jsonify [("status", JStr "success");
                ("total", JNum (len conversations));
                ("limit", JNum limit);
                ("offset", JNum offset);
                ("conversations", JArr (json_of_conv <$> page))]).

(** The loop of [get_conversation]: the first record with the id ends it. *)
Fixpoint find_conversation (conversation_id : Z) (conversations : list loc)
  : M (option Conv.t) :=
  match conversations with
  | [] => ret None
  | conv :: rest =>
      let* c := read_dict conv in
      if Conv.id c =? conversation_id then ret (Some c)
      else find_conversation conversation_id rest
  end.

(** [GET /conversations/<int:conversation_id>] *)
Definition get_conversation (conversation_id : Z) : M reply :=
  let* conversations := load_conversations in
  let* found := find_conversation conversation_id conversations in
  match found with
  | Some conv =>
      ret (jsonify [("status", JStr "success");
                    ("conversation", json_of_conv conv)])
  | None =>
      ret (error_reply ("Conversation #" +:+ pretty conversation_id +:+ " not found") 404)
  end.

(** ** The log as a function of the stored list *)

(** What reading the file gives [load_conversations]. *)
Definition loaded (f : file_state) : list Conv.t :=
  match f with
  | Stored cs => cs
  | _ => []
  end.

(** The records after the renumbering loop started at index [i]. *)
Fixpoint renumber_from (i : Z) (cs : list Conv.t) : list Conv.t :=
  match cs with
  | [] => []
  | c :: rest => Conv.set_id (i + 1) c :: renumber_from (i + 1) rest
  end.

(** The dictionary [add_conversation] builds when [cs] was loaded. *)
Definition new_conversation (ev : env) (prompt : json) (response model_name : string)
    (cs : list Conv.t) : Conv.t :=
  {| Conv.id := len cs + 1;
     Conv.timestamp := now_isoformat ev;
     Conv.prompt := prompt;
     Conv.response := response;
     Conv.model := model_name;
     Conv.response_length := len_str response |}.

(** The list handed to [save_conversations] once [all] holds the new record. *)
Definition retained (all : list Conv.t) : list Conv.t :=
  if 100 <? len all then renumber_from 0 (py_slice (Some (-100)) None all)
  else all.

Definition appended (ev : env) (prompt : json) (response model_name : string)
    (cs : list Conv.t) : list Conv.t :=
  retained (cs ++ [new_conversation ev prompt response model_name cs]).

(** The id the new record ends with: its position in the written list. *)
Definition final_id (cs : list Conv.t) : Z := Z.min (len cs + 1) 100.

(** Everything of a record but its id. *)
Definition content (c : Conv.t) : string * json * string * string * Z :=
  (Conv.timestamp c, Conv.prompt c, Conv.response c, Conv.model c,
   Conv.response_length c).

(** ** The gateway by stages *)

(** The prompt [generate_text] reads off the request, or the exception
    raised before the backend is called. *)
Definition prompt_of (get_json : result json) : result json :=
  match get_json with
  | Raise e => Raise e
  | Ok parsed =>
      let data := if truthy parsed then parsed else JObj [] in
      match get_method data "prompt" (JStr "Hello, how are you?") with
      | Raise e => Raise e
      | Ok prompt =>
          match slice_50 prompt with
          | Raise e => Raise e
          | Ok _ => Ok prompt
          end
      end
  end.

(** The call sent to the backend for a prompt. *)
Definition post_of (cfg : config) (prompt : json) : post_call :=
  {| url := OLLAMA_HOST cfg +:+ "/api/generate";
     payload := JObj [("model", JStr (MODEL_NAME cfg));
                      ("prompt", prompt);
                      ("stream", JBool false);
                      ("options", JObj [("temperature", JFloat (7 # 10))])];
     timeout := 180 |}.

(** The text taken from a 200 response, or the exception raised on it. *)
Definition generated_text_of (decoded : result json) : result string :=
  match decoded with
  | Raise e => Raise e
  | Ok result =>
      match get_method result "response" (JStr "") with
      | Raise e => Raise e
      | Ok text => strip_method text
      end
  end.

Definition success_reply (cfg : config) (generated_text : string)
    (conversation_id : json) : reply :=
  jsonify [("status", JStr "success");
           ("generated_text", JStr generated_text);
           ("model", JStr (MODEL_NAME cfg));
           ("conversation_id", conversation_id)].

(** ** The service over a sequence of requests *)

(** The requests that reach the log.  [GET /generate] answers with a fixed
    document and [GET /] renders a page from the loaded list; neither
    writes. *)
Inductive request : Type :=
| GetHealth
| PostGenerate (ev : env) (get_json : result json)
| GetConversations (limit_arg offset_arg : query_arg)
| GetConversation (conversation_id : Z).

Definition handle (cfg : config) (rq : request) : M reply :=
  match rq with
  | GetHealth => health cfg
  | PostGenerate ev get_json => generate_text cfg ev get_json
  | GetConversations limit_arg offset_arg => get_conversations limit_arg offset_arg
  | GetConversation conversation_id => get_conversation conversation_id
  end.

(** The requests are served one after the other; the dictionaries of a
    finished request stay in the heap as garbage. *)
Fixpoint serve (cfg : config) (rqs : list request) (m : mem) : list (result reply) * mem :=
  match rqs with
  | [] => ([], m)
  | rq :: rest =>
      let '(r, m1) := handle cfg rq m in
      let '(rs, m2) := serve cfg rest m1 in
      (r :: rs, m2)
  end.

(** A fresh deployment: no storage file, nothing sent yet. *)
Definition fresh : mem := {| heap := []; file := Missing; posts := [] |}.

(** A sequence of appends, each with its own surroundings. *)
Record append_call : Type := {
  a_env : env;
  a_prompt : json;
  a_response : string;
  a_model : string
}.

Fixpoint add_conversations (calls : list append_call) : M (list (option loc)) :=
  match calls with
  | [] => ret []
  | a :: rest =>
      let* r := add_conversation (a_env a) (a_prompt a) (a_response a) (a_model a) in
      let* rs := add_conversations rest in
      ret (r :: rs)
  end.

(** The records [calls] add to a history of [n] records, in order. *)
Fixpoint records_from (n : Z) (calls : list append_call) : list Conv.t :=
  match calls with
  | [] => []
  | a :: rest =>
      {| Conv.id := n + 1;
         Conv.timestamp := now_isoformat (a_env a);
         Conv.prompt := a_prompt a;
         Conv.response := a_response a;
         Conv.model := a_model a;
         Conv.response_length := len_str (a_response a) |}
      :: records_from (n + 1) rest
  end.

(** The invariants of the data model. *)
Definition dense_ids (cs : list Conv.t) : Prop :=
  Conv.id <$> cs = seqZ 1 (len cs).

Definition lengths_recorded (cs : list Conv.t) : Prop :=
  Forall (fun c => Conv.response_length c = len_str (Conv.response c)) cs.

(** What a call contributes to its record, the id apart. *)
Definition call_content (a : append_call) : string * json * string * string * Z :=
  (now_isoformat (a_env a), a_prompt a, a_response a, a_model a,
   len_str (a_response a)).

Definition write_succeeds (a : append_call) : Prop := disk (a_env a) = Written.

(** A handler outcome that reports failure with [message] under status 500
    and leaves the storage file as it was in [m]. *)
Definition fails_with (message : string) (m : mem) (out : result reply * mem) : Prop :=
  fst out = Ok {| body := JObj [("status", JStr "error");
                                ("message", JStr message)];
                  status := 500 |}
  /\ file (snd out) = file m.

(** The record the loop of [get_conversation] stops at. *)
Fixpoint first_with_id (conversation_id : Z) (cs : list Conv.t) : option Conv.t :=
  match cs with
  | [] => None
  | c :: rest =>
      if Conv.id c =? conversation_id then Some c
      else first_with_id conversation_id rest
  end.

(** The document a reply is expected to show for a stored record: each of
    its six entries, under the key and in the order of the dictionary. *)
Definition conversation_document (c : Conv.t) : json :=
  JObj [("id", JNum (Conv.id c));
        ("timestamp", JStr (Conv.timestamp c));
        ("prompt", Conv.prompt c);
        ("response", JStr (Conv.response c));
        ("model", JStr (Conv.model c));
        ("response_length", JNum (Conv.response_length c))].

(** The answer of [GET /conversations] for a page of records. *)
Definition page_reply (total limit offset : Z) (page : list Conv.t) : reply :=
  {| body := JObj [("status", JStr "success");
                   ("total", JNum total);
                   ("limit", JNum limit);
                   ("offset", JNum offset);
                   ("conversations", JArr (conversation_document <$> page))];
     status := 200 |}.

Definition found_reply (c : Conv.t) : reply :=
  {| body := JObj [("status", JStr "success");
                   ("conversation", conversation_document c)];
     status := 200 |}.

Definition not_found_reply (conversation_id : Z) : reply :=
  {| body := JObj [("status", JStr "error");
                   ("message",
                    JStr ("Conversation #" +:+ pretty conversation_id +:+ " not found"))];
     status := 404 |}.

(** What the service keeps true of the stored list. *)
Definition well_kept (cs : list Conv.t) : Prop :=
  dense_ids cs /\ lengths_recorded cs /\ (length cs <= 100)%nat.

(** ** The page of recent conversations *)

(** [s.replace(old, new)] for one-character [old] and [new]. *)
Fixpoint replace_char (old new : ascii) (s : string) : string :=
  match s with
  | EmptyString => EmptyString
  | String c rest =>
      String (if Ascii.eqb c old then new else c) (replace_char old new rest)
  end.

(** One entry of the page: the values the template puts into it, in the
    order of the markup.  The time is [conv.timestamp[:19].replace('T', ' ')]. *)
Record page_row : Type := {
  row_prompt : json;
  row_response : string;
  row_id : Z;
  row_model : string;
  row_length : Z;
  row_time : string
}.

Definition row_of (conv : Conv.t) : page_row :=
  {| row_prompt := Conv.prompt conv;
     row_response := Conv.response conv;
     row_id := Conv.id conv;
     row_model := Conv.model conv;
     row_length := Conv.response_length conv;
     row_time := replace_char "T" " " (substring 0 19 (Conv.timestamp conv)) |}.

(** What [render_template_string] is given and what the template makes of
    it: the header values, the entries of the loop over
    [conversations[-10:]|reverse], and whether the [else] branch with the
    notice that nothing is stored is taken.  The markup around the values is
    left out. *)
Record page : Type := {
  page_model_name : string;
  page_total : Z;
  page_rows : list page_row;
  page_notice : bool
}.

(** [GET /] *)
Definition web_interface (cfg : config) : M page :=
  let* conversations := load_conversations in
  let* shown := read_dicts (reverse (py_slice (Some (-10)) None conversations)) in
  ret {| page_model_name := MODEL_NAME cfg;
         page_total := len conversations;
         page_rows := match conversations with
                      | [] => []
                      | _ => row_of <$> shown
                      end;
         page_notice := match conversations with
                        | [] => true
                        | _ => false
                        end |}.

(** ** Notions for the further properties *)

(** The time an entry of the page is expected to show for a timestamp: its
    first 19 characters, each [T] among them turned into a space. *)
Definition shows_time (timestamp shown : string) : Prop :=
  forall k : nat,
    String.get k shown
    = if (k <? 19)%nat
      then (fun ch => if Ascii.eqb ch "T" then " "%char else ch)
             <$> String.get k timestamp
      else None.

(** The [status] entry of a reply document. *)
Definition reply_status (r : reply) : option json :=
  match body r with
  | JObj fields => dict_lookup "status" fields
  | _ => None
  end.



(** The answer of [GET /health] for a count of stored records. *)
Definition health_reply (cfg : config) (total : Z) : reply :=
  jsonify [("status", JStr "healthy");
           ("service", JStr "Basic Local AI");
           ("model", JStr (MODEL_NAME cfg));
           ("total_conversations", JNum total);
           ("storage_file", JStr CONVERSATIONS_FILE)].

(** How many of the requests are [POST /generate]. *)
Fixpoint generations (rqs : list request) : nat :=
  match rqs with
  | [] => 0
  | PostGenerate _ _ :: rest => S (generations rest)
  | _ :: rest => generations rest
  end.

(** One entry of the payload of a call. *)
Definition payload_field (key : string) (c : post_call) : option json :=
  match payload c with
  | JObj fields => dict_lookup key fields
  | _ => None
  end.

(** A call as [generate_text] issues them. *)
Definition well_formed_call (cfg : config) (c : post_call) : Prop :=
  url c = OLLAMA_HOST cfg +:+ "/api/generate"
  /\ timeout c = 180
  /\ payload_field "model" c = Some (JStr (MODEL_NAME cfg))
  /\ payload_field "stream" c = Some (JBool false)
  /\ is_Some (payload_field "prompt" c).

(** Nothing is left for [strip] to remove. *)
Definition responses_stripped (cs : list Conv.t) : Prop :=
  Forall (fun c => strip (Conv.response c) = Conv.response c) cs.

(** ** Sample data *)

Definition sample_cfg : config :=
  {| OLLAMA_HOST := "http://localhost:11434"; MODEL_NAME := "llama3.2:3b" |}.

Definition sample_record (i : nat) : Conv.t :=
  {| Conv.id := Z.of_nat i;
     Conv.timestamp := "2024-01-01T00:00:00";
     Conv.prompt := JStr "ping";
     Conv.response := "pong";
     Conv.model := "llama3.2:3b";
     Conv.response_length := 4 |}.

(** A history of [n] records with ids [1..n]. *)
Definition sample_history (n : nat) : list Conv.t := sample_record <$> seq 1 n.

Definition holding (cs : list Conv.t) : mem :=
  {| heap := []; file := Stored cs; posts := [] |}.

(** A backend that answers every call with [outcome]. *)
Definition sample_env (outcome : backend_outcome) (w : write_outcome) : env :=
  {| now_isoformat := "2024-01-02T03:04:05"; backend := fun _ => outcome; disk := w |}.

Definition hello_backend : backend_outcome :=
  Responds 200 (Ok (JObj [("response", JStr " Hello! ")])).

Definition hi_request : result json := Ok (JObj [("prompt", JStr "Hi")]).

Definition sample_call (i : nat) : append_call :=
  {| a_env := sample_env hello_backend Written;
     a_prompt := JNum (Z.of_nat i);
     a_response := "Hello!";
     a_model := "llama3.2:3b" |}.

(** The record the request [hi_request] leaves when the backend answers
    [hello_backend] and nothing was stored before. *)
Definition hello_record : Conv.t :=
  {| Conv.id := 1;
     Conv.timestamp := "2024-01-02T03:04:05";
     Conv.prompt := JStr "Hi";
     Conv.response := "Hello!";
     Conv.model := "llama3.2:3b";
     Conv.response_length := 6 |}.

(** Two records whose ids have a gap, as a hand-edited file may hold. *)
Definition gapped_history : list Conv.t :=
  [Conv.set_id 7 (sample_record 1); Conv.set_id 9 (sample_record 2)].

(** ** The definitions at work *)

Example strip_hello : strip " Hello! " = "Hello!" /\ len_str (strip " Hello! ") = 6.
Proof. split; reflexivity. Qed.

Example strip_keeps_inner_space :
  strip (String (ascii_of_nat 9) "a b" +:+ String (ascii_of_nat 10) "") = "a b".
Proof. reflexivity. Qed.

Example py_slice_samples :
  py_slice (Some (-2)) None [1; 2; 3] = [2; 3]
  /\ py_slice (Some (-5)) None [1; 2; 3] = [1; 2; 3]
  /\ py_slice (Some 1) (Some 2) [1; 2; 3] = [2]
  /\ py_slice (Some 2) (Some 9) [1; 2; 3] = [3]
  /\ py_slice (Some 4) (Some 9) [1; 2; 3] = []
  /\ py_slice (Some 1) (Some (-1)) [1; 2; 3] = [2].
Proof. repeat split; reflexivity. Qed.

Example body_not_an_object :
  fst (generate_text sample_cfg (sample_env hello_backend Written)
         (Ok (JArr [JNull])) fresh)
  = Ok (error_reply "'list' object has no attribute 'get'" 500).
Proof. reflexivity. Qed.

Example prompt_not_subscriptable :
  generate_text sample_cfg (sample_env hello_backend Written)
    (Ok (JObj [("prompt", JNum 7)])) fresh
  = (Ok (error_reply "'int' object is not subscriptable" 500), fresh).
Proof. reflexivity. Qed.

Example not_found_on_fresh :
  get_conversation 2 fresh = (Ok (not_found_reply 2), fresh)
  /\ body (not_found_reply 2)
     = JObj [("status", JStr "error"); ("message", JStr "Conversation #2 not found")].
Proof. split; reflexivity. Qed.

(** ** Proofs: slices, the heap and the loop *)

Lemma py_slice_last_100 {A} (l : list A) :
  py_slice (Some (-100)) None l = drop (length l - 100) l.
Proof.
  unfold py_slice, slice_bound, len. simpl.
  replace (Z.to_nat (Z.max (-100 + Z.of_nat (length l)) 0))
    with (length l - 100)%nat by lia.
  apply take_ge. rewrite length_drop. lia.
Qed.

Lemma py_slice_window {A} (lo n : Z) (l : list A) :
  0 <= lo -> 0 <= n ->
  py_slice (Some lo) (Some (lo + n)) l = take (Z.to_nat n) (drop (Z.to_nat lo) l).
Proof.
  intros Hlo Hn. unfold py_slice, slice_bound, len.
  destruct (Z.ltb_spec lo 0); [lia|].
  destruct (Z.ltb_spec (lo + n) 0); [lia|].
  destruct (Z.le_gt_cases (Z.of_nat (length l)) lo) as [Hout|Hin].
  - rewrite (drop_ge l (Z.to_nat lo)) by lia.
    rewrite (drop_ge l) by lia. by rewrite !take_nil.
  - rewrite (Z.min_l lo) by lia.
    destruct (Z.le_gt_cases (lo + n) (Z.of_nat (length l))).
    + rewrite Z.min_l by lia. f_equal. lia.
    + rewrite Z.min_r by lia.
      rewrite !take_ge; [done | rewrite length_drop; lia ..].
Qed.

Lemma length_renumber_from i cs : length (renumber_from i cs) = length cs.
Proof. revert i. induction cs as [|c cs IH]; intros i; simpl; [done|]. by rewrite IH. Qed.

Lemma deref_fmap_seq (pre xs post : list Conv.t) :
  deref (pre ++ xs ++ post) <$> seq (length pre) (length xs) = xs.
Proof.
  revert pre. induction xs as [|x xs IH]; intros pre; simpl; [done|].
  f_equal.
  - unfold deref. by apply list_lookup_total_middle.
  - specialize (IH (pre ++ [x])).
    rewrite length_app, Nat.add_1_r, <- app_assoc in IH. exact IH.
Qed.

Lemma renumber_loop (cs pre post : list Conv.t) (i : Z) (m : mem) :
  heap m = pre ++ cs ++ post ->
  for_each (enumerate_from i (seq (length pre) (length cs)))
    (fun '(i, conv) => assign_id conv (i + 1)) m
  = (Ok tt, set_heap (pre ++ renumber_from i cs ++ post) m).
Proof.
  revert pre i m. induction cs as [|c cs IH]; intros pre i m Hm.
  - simpl. unfold ret. destruct m; simpl in *; by subst.
  - simpl. unfold bind, assign_id at 1.
    pose proof (IH (pre ++ [Conv.set_id (i + 1) c]) (i + 1)) as IH'.
    rewrite length_app, Nat.add_1_r in IH'. rewrite IH'.
    + destruct m; unfold set_heap; simpl. by rewrite <- app_assoc.
    + simpl. rewrite Hm, <- app_assoc. simpl.
      rewrite alter_app_r_alt by lia. by rewrite Nat.sub_diag.
Qed.

Lemma load_conversations_run m :
  load_conversations m
  = (Ok (seq (length (heap m)) (length (loaded (file m)))),
     set_heap (heap m ++ loaded (file m)) m).
Proof.
  destruct m as [h f p]. unfold load_conversations, try_except, bind, os_path_exists.
  destruct f; simpl; unfold set_heap; simpl; by rewrite ?app_nil_r.
Qed.

Lemma len_seq a n : len (seq a n) = Z.of_nat n.
Proof. unfold len. by rewrite length_seq. Qed.

Lemma save_conversations_run w ls m :
  save_conversations w ls m
  = match w with
    | Written => (Ok true, set_file (Stored (deref (heap m) <$> ls)) m)
    | OpenFails _ => (Ok false, m)
    | DumpFails _ e' => (Ok false, set_file (Malformed e') m)
    end.
Proof. unfold save_conversations, try_except, bind, open_json_dump. by destruct w. Qed.

(** The mutable-heap run of [add_conversation] agrees with the list
    function [retained]: the written list, the reference returned and the
    dictionaries left in the heap. *)
Lemma add_conversation_run ev prompt response model_name m :
  let cs := loaded (file m) in
  let all := cs ++ [new_conversation ev prompt response model_name cs] in
  let m1 := set_heap (heap m ++ take (length all - 100) all ++ retained all) m in
  add_conversation ev prompt response model_name m
  = match disk ev with
    | Written =>
        (Ok (Some (length (heap m) + length cs)%nat),
         set_file (Stored (retained all)) m1)
    | OpenFails _ => (Ok None, m1)
    | DumpFails _ e' => (Ok None, set_file (Malformed e') m1)
    end.
Proof.
  intros cs all m1. subst m1. unfold add_conversation.
  unfold bind at 1. rewrite load_conversations_run. fold cs.
  unfold bind at 1, new_dict. simpl heap.
  rewrite len_seq. fold (len cs).
  fold (new_conversation ev prompt response model_name cs).
  rewrite length_app. rewrite <- seq_S. rewrite <- app_assoc. fold all.
  rewrite len_seq.
  assert (Hall : length all = S (length cs))
    by (unfold all; rewrite length_app; simpl; lia).
  set (m2 := set_heap (heap m ++ all) (set_heap (heap m ++ cs) m)).
  assert (Hm2 : heap m2 = heap m ++ all) by reflexivity.
  unfold retained, len. rewrite Hall.
  set (k := (S (length cs) - 100)%nat).
  destruct (Z.ltb_spec 100 (Z.of_nat (S (length cs)))) as [Hlt|Hge].
  - rewrite !py_slice_last_100. rewrite length_seq, drop_seq.
    rewrite Hall. fold k.
    replace (seq (length (heap m) + k) (S (length cs) - k))
      with (seq (length (heap m ++ take k all)) (length (drop k all))).
    2:{ rewrite length_app, length_take, length_drop, Hall. f_equal; lia. }
    unfold bind at 1. unfold bind at 1. unfold enumerate.
    rewrite (renumber_loop (drop k all) (heap m ++ take k all) [] 0 m2).
    2:{ rewrite Hm2, app_nil_r, <- app_assoc. by rewrite take_drop. }
    unfold ret at 1. unfold bind at 1. rewrite save_conversations_run.
    simpl heap.
    rewrite <- (length_renumber_from 0 (drop k all)), deref_fmap_seq.
    rewrite app_nil_r, <- app_assoc.
    destruct (disk ev), m; reflexivity.
  - replace k with 0%nat by lia. rewrite take_0. simpl app.
    unfold ret at 1. unfold bind. rewrite save_conversations_run.
    simpl heap. rewrite <- Hall.
    pose proof (deref_fmap_seq (heap m) all []) as Hd.
    rewrite app_nil_r in Hd. rewrite Hd.
    destruct (disk ev), m; reflexivity.
Qed.


(** ** Proofs: renumbering *)

Lemma renumber_from_ids i cs :
  Conv.id <$> renumber_from i cs = seqZ (i + 1) (len cs).
Proof.
  revert i. induction cs as [|c cs IH]; intros i; [done|].
  unfold len. simpl length. rewrite seqZ_cons by lia. simpl. f_equal.
  rewrite IH. unfold len. f_equal; lia.
Qed.

Lemma renumber_from_content i cs :
  content <$> renumber_from i cs = content <$> cs.
Proof. revert i. induction cs as [|c cs IH]; intros i; simpl; [done|]. by rewrite IH. Qed.

Lemma renumber_from_lookup i cs (j : nat) :
  renumber_from i cs !! j = Conv.set_id (i + Z.of_nat j + 1) <$> cs !! j.
Proof.
  revert i j. induction cs as [|c cs IH]; intros i [|j]; simpl; try done.
  - do 3 f_equal. lia.
  - rewrite IH. do 2 f_equal. lia.
Qed.

Lemma set_id_same c : Conv.set_id (Conv.id c) c = c.
Proof. by destruct c. Qed.

Lemma retained_small all : len all <= 100 -> retained all = all.
Proof. unfold retained. intros H. destruct (Z.ltb_spec 100 (len all)); [lia|done]. Qed.

Lemma retained_large all :
  100 < len all -> retained all = renumber_from 0 (drop (length all - 100) all).
Proof.
  unfold retained. intros H. destruct (Z.ltb_spec 100 (len all)); [|lia].
  by rewrite py_slice_last_100.
Qed.

Lemma length_retained all : length (retained all) = (length all `min` 100)%nat.
Proof.
  destruct (Z.le_gt_cases (len all) 100) as [H|H]; unfold len in H.
  - rewrite retained_small by done. lia.
  - rewrite retained_large by (unfold len; lia).
    rewrite length_renumber_from, length_drop. lia.
Qed.

Lemma retained_ids all :
  Conv.id <$> all = seqZ 1 (len all) -> Conv.id <$> retained all = seqZ 1 (len (retained all)).
Proof.
  intros Hall. destruct (Z.le_gt_cases (len all) 100) as [H|H].
  - by rewrite retained_small.
  - rewrite retained_large by done. rewrite renumber_from_ids.
    unfold len. by rewrite length_renumber_from.
Qed.

(** The dictionary the caller of [add_conversation] holds, read after the
    loop: the new record under the id of its final position. *)
Lemma returned_record h cs new :
  Conv.id new = len cs + 1 ->
  deref (h ++ take (length (cs ++ [new]) - 100) (cs ++ [new]) ++ retained (cs ++ [new]))
        (length h + length cs)
  = Conv.set_id (final_id cs) new.
Proof.
  intros Hid. unfold deref, final_id. apply list_lookup_total_correct.
  rewrite lookup_app_r by lia.
  replace (length h + length cs - length h)%nat with (length cs) by lia.
  set (all := cs ++ [new]).
  assert (Hall : length all = S (length cs))
    by (unfold all; rewrite length_app; simpl; lia).
  assert (Hnew : all !! length cs = Some new) by (by apply list_lookup_middle).
  destruct (Z.le_gt_cases (len all) 100) as [H|H]; unfold len in *.
  - rewrite retained_small by done.
    replace (length all - 100)%nat with 0%nat by lia. rewrite take_0. simpl app.
    rewrite Hnew. f_equal. rewrite Z.min_l by lia.
    by rewrite <- Hid, set_id_same.
  - rewrite retained_large by done.
    rewrite lookup_app_r by (rewrite length_take; lia).
    rewrite length_take, renumber_from_lookup, lookup_drop.
    replace (length all - 100 + (length cs - (length all - 100) `min` length all))%nat
      with (length cs) by lia.
    rewrite Hnew. simpl. do 2 f_equal. lia.
Qed.

(** ** The claims about the log *)

(** C1. With exactly 100 records stored, a successful append leaves exactly
    100 records: the oldest one is gone, the other 99 and the new record keep
    their order and their content, the ids are 1..100 in that order, and the
    record handed back to the caller is the last one, carrying id 100. *)
Theorem add_conversation_at_capacity ev prompt response model_name m cs :
  file m = Stored cs ->
  length cs = 100%nat ->
  disk ev = Written ->
  exists l m' cs',
    add_conversation ev prompt response model_name m = (Ok (Some l), m')
    /\ file m' = Stored cs'
    /\ length cs' = 100%nat
    /\ content <$> cs'
       = content <$> (drop 1 cs ++ [new_conversation ev prompt response model_name cs])
    /\ Conv.id <$> cs' = seqZ 1 100
    /\ last cs' = Some (deref (heap m') l)
    /\ Conv.id (deref (heap m') l) = 100.
Proof.
  intros Hfile Hlen Hdisk.
  pose proof (add_conversation_run ev prompt response model_name m) as Hrun.
  rewrite Hfile, Hdisk in Hrun. simpl in Hrun.
  set (new := new_conversation ev prompt response model_name cs) in *.
  set (all := cs ++ [new]) in *.
  assert (Hall : length all = 101%nat)
    by (unfold all; rewrite length_app, Hlen; reflexivity).
  assert (Hret : retained all = renumber_from 0 (drop 1 all)).
  { rewrite retained_large by (unfold len; lia). by rewrite Hall. }
  assert (Hdrop : drop 1 all = drop 1 cs ++ [new]).
  { unfold all. rewrite drop_app_le by lia. done. }
  eexists _, _, (retained all). split; [exact Hrun|].
  assert (Hret_len : length (retained all) = 100%nat)
    by (rewrite length_retained; lia).
  assert (Hback : deref (heap m ++ take (length all - 100) all ++ retained all)
                    (length (heap m) + length cs) = Conv.set_id 100 new).
  { unfold all. rewrite returned_record by reflexivity.
    unfold final_id, len. rewrite Hlen. reflexivity. }
  repeat split.
  - done.
  - by rewrite Hret, renumber_from_content, Hdrop.
  - rewrite Hret, renumber_from_ids. unfold len.
    rewrite length_drop, Hall. reflexivity.
  - simpl heap. rewrite Hback, last_lookup, Hret_len, Hret. simpl pred.
    rewrite renumber_from_lookup, lookup_drop. unfold all.
    rewrite (list_lookup_middle cs [] new (1 + 99)) by lia. reflexivity.
  - simpl heap. by rewrite Hback.
Qed.

Lemma add_conversation_at_capacity_witness :
  file (holding (sample_history 100)) = Stored (sample_history 100)
  /\ length (sample_history 100) = 100%nat
  /\ disk (sample_env hello_backend Written) = Written
  /\ exists l m' cs',
       add_conversation (sample_env hello_backend Written) (JStr "Hi") "Hello!"
         "llama3.2:3b" (holding (sample_history 100)) = (Ok (Some l), m')
       /\ file m' = Stored cs'
       /\ length cs' = 100%nat
       /\ content <$> cs'
          = content <$> (drop 1 (sample_history 100)
                         ++ [new_conversation (sample_env hello_backend Written)
                               (JStr "Hi") "Hello!" "llama3.2:3b" (sample_history 100)])
       /\ Conv.id <$> cs' = seqZ 1 100
       /\ last cs' = Some (deref (heap m') l)
       /\ Conv.id (deref (heap m') l) = 100.
Proof.
  split; [reflexivity|]. split; [reflexivity|]. split; [reflexivity|].
  apply (add_conversation_at_capacity (sample_env hello_backend Written)
           (JStr "Hi") "Hello!" "llama3.2:3b"
           (holding (sample_history 100)) (sample_history 100));
    reflexivity.
Defined.

Lemma records_from_ids n calls :
  Conv.id <$> records_from n calls = seqZ (n + 1) (len calls).
Proof.
  revert n. induction calls as [|a calls IH]; intros n; [done|].
  unfold len. simpl length. rewrite seqZ_cons by lia. simpl. f_equal.
  rewrite IH. unfold len. f_equal; lia.
Qed.

Lemma records_from_content n calls :
  content <$> records_from n calls = call_content <$> calls.
Proof. revert n. induction calls as [|a calls IH]; intros n; simpl; [done|]. by rewrite IH. Qed.

Lemma length_records_from n calls : length (records_from n calls) = length calls.
Proof. revert n. induction calls as [|a calls IH]; intros n; simpl; [done|]. by rewrite IH. Qed.

(** Below the cap every successful append only extends the stored list. *)
Lemma add_conversations_run calls : forall m,
  Forall write_succeeds calls ->
  len (loaded (file m)) + len calls <= 100 ->
  exists rs m',
    add_conversations calls m = (Ok rs, m')
    /\ Forall is_Some rs
    /\ length rs = length calls
    /\ loaded (file m') = loaded (file m) ++ records_from (len (loaded (file m))) calls
    /\ posts m' = posts m.
Proof.
  induction calls as [|a calls IH]; intros m Hw Hcap.
  - exists [], m. simpl. by rewrite app_nil_r.
  - apply Forall_cons in Hw as [Ha Hw]. unfold write_succeeds in Ha.
    unfold len in Hcap. simpl length in Hcap.
    simpl add_conversations. unfold bind at 1.
    rewrite add_conversation_run, Ha.
    set (cs := loaded (file m)) in *.
    set (new := new_conversation (a_env a) (a_prompt a) (a_response a) (a_model a) cs).
    assert (Hlen : length (cs ++ [new]) = S (length cs))
      by (rewrite length_app; simpl; lia).
    rewrite (retained_small (cs ++ [new])) by (unfold len; lia).
    match goal with |- context [set_file ?f ?m0] => set (m1 := set_file f m0) end.
    destruct (IH m1) as (rs & m' & Hrun & Hrs & Hlrs & Hfile & Hposts).
    + done.
    + simpl. unfold len. rewrite Hlen. lia.
    + unfold bind. rewrite Hrun. eexists _, m'. split; [reflexivity|].
      split; [constructor; [by eexists|done]|].
      split; [simpl; lia|].
      split; [|by rewrite Hposts].
      rewrite Hfile. simpl. rewrite <- app_assoc. simpl. do 3 f_equal.
      unfold len. rewrite Hlen. lia.
Qed.

(** C2. Starting from an empty history, N <= 100 successful appends leave N
    records that carry the ids 1..N and the appended contents, in the order
    of the appends. *)
Theorem appends_number_densely calls m :
  loaded (file m) = [] ->
  Forall write_succeeds calls ->
  (length calls <= 100)%nat ->
  exists rs m',
    add_conversations calls m = (Ok rs, m')
    /\ Forall is_Some rs
    /\ length (loaded (file m')) = length calls
    /\ Conv.id <$> loaded (file m') = seqZ 1 (len calls)
    /\ content <$> loaded (file m') = call_content <$> calls.
Proof.
  intros Hempty Hw Hn.
  destruct (add_conversations_run calls m Hw) as (rs & m' & Hrun & Hrs & _ & Hfile & _).
  { rewrite Hempty. unfold len. simpl. lia. }
  rewrite Hempty in Hfile. simpl in Hfile.
  exists rs, m'. rewrite Hfile.
  repeat split; try done.
  - apply length_records_from.
  - apply records_from_ids.
  - apply records_from_content.
Qed.

Lemma appends_number_densely_witness :
  loaded (file fresh) = []
  /\ Forall write_succeeds (sample_call <$> seq 0 3)
  /\ (length (sample_call <$> seq 0 3) <= 100)%nat
  /\ exists rs m',
       add_conversations (sample_call <$> seq 0 3) fresh = (Ok rs, m')
       /\ Forall is_Some rs
       /\ length (loaded (file m')) = length (sample_call <$> seq 0 3)
       /\ Conv.id <$> loaded (file m') = seqZ 1 (len (sample_call <$> seq 0 3))
       /\ content <$> loaded (file m') = call_content <$> (sample_call <$> seq 0 3).
Proof.
  assert (Hw : Forall write_succeeds (sample_call <$> seq 0 3))
    by (repeat constructor).
  split; [reflexivity|]. split; [exact Hw|]. split; [simpl; lia|].
  apply (appends_number_densely (sample_call <$> seq 0 3) fresh);
    [reflexivity | exact Hw | simpl; lia].
Defined.

(** C3. Whether the storage file is absent, cannot be read or does not
    decode, [load_conversations] hands back the empty list and touches
    nothing; and in no state of the file does it raise. *)
Theorem load_conversations_never_fails :
  (forall h p, load_conversations {| heap := h; file := Missing; posts := p |}
               = (Ok [], {| heap := h; file := Missing; posts := p |}))
  /\ (forall h p e, load_conversations {| heap := h; file := Unreadable e; posts := p |}
                    = (Ok [], {| heap := h; file := Unreadable e; posts := p |}))
  /\ (forall h p e, load_conversations {| heap := h; file := Malformed e; posts := p |}
                    = (Ok [], {| heap := h; file := Malformed e; posts := p |}))
  /\ (forall m, exists ls m', load_conversations m = (Ok ls, m')).
Proof.
  repeat split; try reflexivity.
  intros m. rewrite load_conversations_run. eauto.
Qed.

(** ** Proofs: the gateway *)

(** [generate_text] unfolded along its stages. *)
Lemma generate_text_run cfg ev get_json m :
  generate_text cfg ev get_json m
  = match prompt_of get_json with
    | Raise e => (Ok (error_reply (str_exn e) 500), m)
    | Ok prompt =>
        let m1 := add_post (post_of cfg prompt) m in
        match backend ev (post_of cfg prompt) with
        | PostRaises e => (Ok (error_reply (str_exn e) 500), m1)
        | Responds status_code decoded =>
            if status_code =? 200 then
              match generated_text_of decoded with
              | Raise e => (Ok (error_reply (str_exn e) 500), m1)
              | Ok text =>
                  let cs := loaded (file m) in
                  let all := cs ++ [new_conversation ev prompt text (MODEL_NAME cfg) cs] in
                  let m2 :=
                    set_heap (heap m ++ take (length all - 100) all ++ retained all) m1 in
                  match disk ev with
                  | Written =>
                      (Ok (success_reply cfg text (JNum (final_id cs))),
                       set_file (Stored (retained all)) m2)
                  | OpenFails _ => (Ok (success_reply cfg text JNull), m2)
                  | DumpFails _ e' =>
                      (Ok (success_reply cfg text JNull), set_file (Malformed e') m2)
                  end
              end
            else (Ok (error_reply ("Ollama API error: " +:+ pretty status_code) 500), m1)
        end
    end.
Proof.
  unfold generate_text, prompt_of, try_except.
  destruct get_json as [parsed|e]; [|reflexivity].
  unfold bind at 1. unfold lift at 1.
  unfold bind at 1. unfold lift at 1.
  destruct (get_method _ "prompt" _) as [prompt|e]; [|reflexivity].
  unfold bind at 1. unfold lift at 1.
  destruct (slice_50 prompt) as [cut|e]; [|reflexivity].
  fold (post_of cfg prompt).
  unfold bind at 1. unfold requests_post.
  destruct (backend ev (post_of cfg prompt)) as [e|status_code decoded]; [reflexivity|].
  destruct (status_code =? 200); [|reflexivity].
  unfold generated_text_of.
  unfold bind at 1. unfold lift at 1.
  destruct decoded as [result|e]; [|reflexivity].
  unfold bind at 1. unfold lift at 1.
  destruct (get_method result "response" _) as [text|e]; [|reflexivity].
  unfold bind at 1. unfold lift at 1.
  destruct (strip_method text) as [generated_text|e]; [|reflexivity].
  unfold bind at 1. rewrite add_conversation_run.
  simpl file. simpl heap.
  destruct (disk ev); try reflexivity.
  unfold bind, read_dict, ret. simpl heap.
  rewrite returned_record by reflexivity. reflexivity.
Qed.

(** Unfold the handler along the stages once the prompt is known. *)
Ltac gateway_run Hp := rewrite generate_text_run, Hp; cbv zeta.

Lemma generate_text_posts cfg ev get_json m prompt :
  prompt_of get_json = Ok prompt ->
  posts (snd (generate_text cfg ev get_json m)) = posts m ++ [post_of cfg prompt].
Proof.
  intros Hp. gateway_run Hp.
  destruct (backend ev _) as [e|code decoded]; [reflexivity|].
  destruct (code =? 200); [|reflexivity].
  destruct (generated_text_of decoded); [|reflexivity].
  by destruct (disk ev).
Qed.

(** C4. Once the backend has been called: a status other than 200 makes the
    handler answer with an error that quotes the status code; an exception
    from the call (timeout, connection error) or from reading the payload
    (undecodable body, a body of the wrong shape) makes it answer with an
    error that carries the exception's text; each time the storage file is
    left as it was. *)
Theorem backend_failure_stores_nothing cfg ev get_json m prompt :
  prompt_of get_json = Ok prompt ->
  (forall status_code decoded,
      backend ev (post_of cfg prompt) = Responds status_code decoded ->
      status_code <> 200 ->
      fails_with ("Ollama API error: " +:+ pretty status_code) m
        (generate_text cfg ev get_json m))
  /\ (forall e,
      backend ev (post_of cfg prompt) = PostRaises e ->
      fails_with (str_exn e) m (generate_text cfg ev get_json m))
  /\ (forall decoded e,
      backend ev (post_of cfg prompt) = Responds 200 decoded ->
      generated_text_of decoded = Raise e ->
      fails_with (str_exn e) m (generate_text cfg ev get_json m)).
Proof.
  intros Hp. unfold fails_with. split; [|split].
  - intros status_code decoded Hb Hne.
    gateway_run Hp. rewrite Hb.
    destruct (Z.eqb_spec status_code 200); [done|]. by split.
  - intros e Hb. gateway_run Hp. rewrite Hb. by split.
  - intros decoded e Hb Hd.
    gateway_run Hp. rewrite Hb. simpl. rewrite Hd. by split.
Qed.

Lemma backend_failure_stores_nothing_witness :
  prompt_of hi_request = Ok (JStr "Hi")
  /\ backend (sample_env (Responds 500 (Raise (Exception "no body"))) Written)
       (post_of sample_cfg (JStr "Hi"))
     = Responds 500 (Raise (Exception "no body"))
  /\ 500 <> 200
  /\ fails_with "Ollama API error: 500" fresh
       (generate_text sample_cfg
          (sample_env (Responds 500 (Raise (Exception "no body"))) Written)
          hi_request fresh).
Proof.
  split; [reflexivity|]. split; [reflexivity|]. split; [lia|].
  apply (proj1 (backend_failure_stores_nothing sample_cfg
                  (sample_env (Responds 500 (Raise (Exception "no body"))) Written)
                  hi_request fresh (JStr "Hi") eq_refl)
           500 (Raise (Exception "no body")) eq_refl).
  lia.
Defined.

(** C5, as the code has it. When the request carries no prompt field (the
    body is empty or null, or an object without the key) the default
    placeholder is what the backend is sent; a prompt field holding the empty
    string is sent as it is. *)
Theorem default_prompt_only_when_absent cfg ev m :
  (forall parsed,
      truthy parsed = false
      \/ (exists fields, parsed = JObj fields /\ dict_lookup "prompt" fields = None) ->
      posts (snd (generate_text cfg ev (Ok parsed) m))
      = posts m ++ [post_of cfg (JStr "Hello, how are you?")])
  /\ (forall fields,
      dict_lookup "prompt" fields = Some (JStr "") ->
      posts (snd (generate_text cfg ev (Ok (JObj fields)) m))
      = posts m ++ [post_of cfg (JStr "")]).
Proof.
  split.
  - intros parsed Habsent. apply generate_text_posts. unfold prompt_of.
    destruct Habsent as [Hfalsy|(fields & -> & Hnone)].
    + by rewrite Hfalsy.
    + destruct (truthy (JObj fields)); simpl; [by rewrite Hnone|done].
  - intros fields Hempty. apply generate_text_posts. unfold prompt_of.
    destruct fields as [|kv fields]; [done|]. simpl truthy. cbv iota.
    unfold get_method. by rewrite Hempty.
Qed.

Lemma default_prompt_only_when_absent_witness :
  (truthy (JObj [("temperature", JNum 1)]) = false
   \/ exists fields, JObj [("temperature", JNum 1)] = JObj fields
                     /\ dict_lookup "prompt" fields = None)
  /\ posts (snd (generate_text sample_cfg (sample_env hello_backend Written)
                   (Ok (JObj [("temperature", JNum 1)])) fresh))
     = posts fresh ++ [post_of sample_cfg (JStr "Hello, how are you?")].
Proof.
  assert (Habsent : truthy (JObj [("temperature", JNum 1)]) = false
                    \/ exists fields, JObj [("temperature", JNum 1)] = JObj fields
                                      /\ dict_lookup "prompt" fields = None).
  { right. exists [("temperature", JNum 1)]. split; reflexivity. }
  split; [exact Habsent|].
  exact (proj1 (default_prompt_only_when_absent sample_cfg
                  (sample_env hello_backend Written) fresh)
           (JObj [("temperature", JNum 1)]) Habsent).
Defined.

(** C5 as worded fails: with the body [{"prompt": ""}] the backend is sent
    the empty prompt, not the placeholder. *)
Lemma empty_prompt_not_replaced :
  posts (snd (generate_text sample_cfg (sample_env hello_backend Written)
                (Ok (JObj [("prompt", JStr "")])) fresh))
  = [post_of sample_cfg (JStr "")]
  /\ posts (snd (generate_text sample_cfg (sample_env hello_backend Written)
                   (Ok (JObj [("prompt", JStr "")])) fresh))
     <> [post_of sample_cfg (JStr "Hello, how are you?")].
Proof. split; [reflexivity|]. vm_compute. discriminate. Qed.

(** ** Proofs: the reading handlers *)

Lemma fmap_py_slice {A B} (f : A -> B) lo hi (l : list A) :
  f <$> py_slice lo hi l = py_slice lo hi (f <$> l).
Proof. unfold py_slice, len. by rewrite fmap_take, fmap_drop, length_fmap. Qed.

Lemma get_conversations_run limit_arg offset_arg m :
  get_conversations limit_arg offset_arg m
  = (Ok (page_reply (len (loaded (file m))) (args_get limit_arg 20) (args_get offset_arg 0)
           (py_slice (Some (args_get offset_arg 0))
              (Some (args_get offset_arg 0 + args_get limit_arg 20))
              (loaded (file m)))),
     set_heap (heap m ++ loaded (file m)) m).
Proof.
  unfold get_conversations, bind. rewrite load_conversations_run.
  unfold read_dicts, ret. simpl heap.
  rewrite fmap_py_slice, len_seq.
  pose proof (deref_fmap_seq (heap m) (loaded (file m)) []) as Hd.
  rewrite app_nil_r in Hd. by rewrite Hd.
Qed.

Lemma find_conversation_run conversation_id (cs pre post : list Conv.t) m :
  heap m = pre ++ cs ++ post ->
  find_conversation conversation_id (seq (length pre) (length cs)) m
  = (Ok (first_with_id conversation_id cs), m).
Proof.
  revert pre. induction cs as [|c cs IH]; intros pre Hm; [done|].
  assert (Hc : heap m !!! length pre = c)
    by (rewrite Hm; simpl; by apply list_lookup_total_middle).
  simpl. unfold bind, read_dict, deref. rewrite Hc.
  destruct (Conv.id c =? conversation_id); [done|].
  specialize (IH (pre ++ [c])). rewrite length_app, Nat.add_1_r in IH.
  apply IH. by rewrite Hm, <- app_assoc.
Qed.

Lemma get_conversation_run conversation_id m :
  get_conversation conversation_id m
  = (Ok (match first_with_id conversation_id (loaded (file m)) with
         | Some c => found_reply c
         | None => not_found_reply conversation_id
         end),
     set_heap (heap m ++ loaded (file m)) m).
Proof.
  unfold get_conversation. unfold bind at 1. rewrite load_conversations_run.
  unfold bind.
  rewrite (find_conversation_run conversation_id (loaded (file m)) (heap m) [])
    by (simpl; by rewrite app_nil_r).
  by destruct (first_with_id conversation_id (loaded (file m))).
Qed.

Lemma first_with_id_dense conversation_id cs : forall a,
  Conv.id <$> cs = seqZ a (len cs) ->
  first_with_id conversation_id cs
  = if decide (a <= conversation_id < a + len cs)
    then cs !! Z.to_nat (conversation_id - a) else None.
Proof.
  induction cs as [|c cs IH]; intros a Hids.
  - unfold len. simpl. case_decide; [lia|done].
  - unfold len in *. simpl length in *. rewrite seqZ_cons in Hids by lia.
    simpl in Hids. injection Hids as Hc Hrest.
    replace (Z.pred (Z.of_nat (S (length cs)))) with (len cs) in Hrest
      by (unfold len; lia).
    simpl. rewrite Hc. destruct (Z.eqb_spec a conversation_id) as [->|Hne].
    + rewrite decide_True by lia. by rewrite Z.sub_diag.
    + rewrite (IH _ Hrest). unfold len.
      destruct (decide (Z.succ a <= conversation_id
                        < Z.succ a + Z.of_nat (length cs))).
      * rewrite decide_True by lia.
        replace (Z.to_nat (conversation_id - a))
          with (S (Z.to_nat (conversation_id - Z.succ a))) by lia.
        done.
      * rewrite decide_False by lia. done.
Qed.

Lemma dense_ids_lookup cs (j : nat) c :
  dense_ids cs -> cs !! j = Some c -> Conv.id c = 1 + Z.of_nat j.
Proof.
  unfold dense_ids. intros Hids Hj.
  assert (Hl : (Conv.id <$> cs) !! j = Some (Conv.id c))
    by (by rewrite list_lookup_fmap, Hj).
  rewrite Hids in Hl. apply lookup_seqZ in Hl. lia.
Qed.

(** ** Proofs: what the service keeps true *)

Lemma lengths_recorded_renumber i cs :
  lengths_recorded cs -> lengths_recorded (renumber_from i cs).
Proof.
  unfold lengths_recorded. intros H. revert i.
  induction H as [|c cs Hc _ IH]; intros i; simpl; constructor; auto.
Qed.

Lemma lengths_recorded_retained all :
  lengths_recorded all -> lengths_recorded (retained all).
Proof.
  intros H. destruct (Z.le_gt_cases (len all) 100).
  - by rewrite retained_small.
  - rewrite retained_large by done.
    apply lengths_recorded_renumber. by apply Forall_drop.
Qed.

Lemma appended_well_kept ev prompt response model_name cs :
  well_kept cs -> well_kept (appended ev prompt response model_name cs).
Proof.
  intros (Hids & Hlens & _). unfold appended.
  set (new := new_conversation ev prompt response model_name cs).
  repeat split.
  - apply retained_ids. unfold dense_ids in Hids.
    rewrite fmap_app, Hids. unfold len. rewrite length_app. simpl.
    rewrite Nat.add_1_r, seqZ_S. unfold len. do 2 f_equal. lia.
  - apply lengths_recorded_retained, Forall_app. split; [done|].
    by constructor.
  - rewrite length_retained. lia.
Qed.

(** After any request the file is as before, or left undecodable by a
    failed write, or holds the list of one append. *)
Lemma handle_file cfg rq m :
  file (snd (handle cfg rq m)) = file m
  \/ (exists e, file (snd (handle cfg rq m)) = Malformed e)
  \/ (exists ev prompt text,
        file (snd (handle cfg rq m))
        = Stored (appended ev prompt text (MODEL_NAME cfg) (loaded (file m)))).
Proof.
  destruct rq as [|ev get_json|limit_arg offset_arg|conversation_id]; simpl.
  - unfold health, bind. rewrite load_conversations_run. by left.
  - rewrite generate_text_run.
    destruct (prompt_of get_json) as [prompt|e]; [|by left]. cbv zeta.
    destruct (backend ev _) as [e|code decoded]; [by left|].
    destruct (code =? 200); [|by left].
    destruct (generated_text_of decoded) as [text|e]; [|by left].
    destruct (disk ev); simpl; eauto 10.
  - rewrite get_conversations_run. by left.
  - rewrite get_conversation_run. by left.
Qed.

Lemma handle_well_kept cfg rq m :
  well_kept (loaded (file m)) -> well_kept (loaded (file (snd (handle cfg rq m)))).
Proof.
  intros Hm.
  destruct (handle_file cfg rq m) as [->|[[e ->]|(ev & prompt & text & ->)]].
  - done.
  - repeat split; simpl; [constructor|lia].
  - by apply appended_well_kept.
Qed.

Lemma serve_well_kept cfg rqs : forall m,
  well_kept (loaded (file m)) -> well_kept (loaded (file (snd (serve cfg rqs m)))).
Proof.
  induction rqs as [|rq rqs IH]; intros m Hm; [done|].
  simpl. pose proof (handle_well_kept cfg rq m Hm) as H1.
  destruct (handle cfg rq m) as [r m1]. specialize (IH m1 H1).
  by destruct (serve cfg rqs m1).
Qed.

(** From a fresh deployment on, the stored ids are dense, every stored
    length is the length of its response, and at most 100 records are kept. *)
Lemma served_well_kept cfg rqs :
  well_kept (loaded (file (snd (serve cfg rqs fresh)))).
Proof. apply serve_well_kept. repeat split; simpl; [constructor|lia]. Qed.

(** ** The claims about the reading handlers *)

(** C7. With ids dense over the stored records, a requested id within
    1..count is answered with the one record that carries it, the record at
    that position, and an id outside 1..count is answered with the
    not-found error under status 404; the file is not touched.  The ids are
    dense in every state that serving requests from a fresh deployment
    leads to. *)
Theorem get_conversation_by_id :
  (forall m conversation_id,
      dense_ids (loaded (file m)) ->
      (1 <= conversation_id <= len (loaded (file m)) ->
       exists c,
         loaded (file m) !! Z.to_nat (conversation_id - 1) = Some c
         /\ Conv.id c = conversation_id
         /\ (forall c', c' ∈ loaded (file m) -> Conv.id c' = conversation_id -> c' = c)
         /\ fst (get_conversation conversation_id m) = Ok (found_reply c))
      /\ (~ 1 <= conversation_id <= len (loaded (file m)) ->
          fst (get_conversation conversation_id m)
          = Ok (not_found_reply conversation_id)
          /\ status (not_found_reply conversation_id) = 404)
      /\ file (snd (get_conversation conversation_id m)) = file m)
  /\ (forall cfg rqs, dense_ids (loaded (file (snd (serve cfg rqs fresh))))).
Proof.
  split; [|intros cfg rqs; apply served_well_kept].
  intros m conversation_id Hdense. rewrite get_conversation_run.
  rewrite (first_with_id_dense _ _ 1 Hdense). simpl fst. simpl snd.
  split; [|split; [|reflexivity]].
  - intros Hin. rewrite decide_True by lia.
    destruct (lookup_lt_is_Some_2 (loaded (file m)) (Z.to_nat (conversation_id - 1)))
      as [c Hc]; [unfold len in Hin; lia|].
    exists c. rewrite Hc. split; [done|].
    pose proof (dense_ids_lookup _ _ _ Hdense Hc) as Hid.
    split; [lia|]. split; [|done].
    intros c' [j Hj]%list_elem_of_lookup Hid'.
    pose proof (dense_ids_lookup _ _ _ Hdense Hj) as Hidj.
    assert (j = Z.to_nat (conversation_id - 1)) as -> by lia. congruence.
  - intros Hout. rewrite decide_False by lia. done.
Qed.

Lemma get_conversation_by_id_witness :
  dense_ids (loaded (file (holding (sample_history 3))))
  /\ 1 <= 2 <= len (loaded (file (holding (sample_history 3))))
  /\ exists c,
       loaded (file (holding (sample_history 3))) !! Z.to_nat (2 - 1) = Some c
       /\ Conv.id c = 2
       /\ (forall c', c' ∈ loaded (file (holding (sample_history 3))) ->
                      Conv.id c' = 2 -> c' = c)
       /\ fst (get_conversation 2 (holding (sample_history 3))) = Ok (found_reply c).
Proof.
  assert (Hd : dense_ids (loaded (file (holding (sample_history 3)))))
    by reflexivity.
  assert (Hin : 1 <= 2 <= len (loaded (file (holding (sample_history 3)))))
    by (vm_compute; split; discriminate).
  split; [exact Hd|]. split; [exact Hin|].
  exact (proj1 (proj1 get_conversation_by_id (holding (sample_history 3)) 2 Hd) Hin).
Defined.

(** C8. For non-negative limit and offset the answer holds the stored
    records from position offset on, at most limit of them and in order,
    together with the count of all stored records; a missing or unreadable
    parameter stands for limit 20 and offset 0; and with limit 1 and offset 1
    over three records it holds the second record and total 3. *)
Theorem get_conversations_page m :
  (forall limit offset,
      0 <= limit -> 0 <= offset ->
      fst (get_conversations (ArgInt limit) (ArgInt offset) m)
      = Ok (page_reply (len (loaded (file m))) limit offset
              (take (Z.to_nat limit) (drop (Z.to_nat offset) (loaded (file m))))))
  /\ (forall limit_arg offset_arg,
      get_conversations limit_arg offset_arg m
      = get_conversations (ArgInt (args_get limit_arg 20))
          (ArgInt (args_get offset_arg 0)) m)
  /\ args_get ArgMissing 20 = 20
  /\ args_get ArgMissing 0 = 0
  /\ (forall r1 r2 r3,
      loaded (file m) = [r1; r2; r3] ->
      fst (get_conversations (ArgInt 1) (ArgInt 1) m) = Ok (page_reply 3 1 1 [r2])).
Proof.
  split; [|split; [|split; [|split]]].
  - intros limit offset Hl Ho. rewrite get_conversations_run. simpl.
    by rewrite py_slice_window.
  - intros limit_arg offset_arg. rewrite !get_conversations_run. reflexivity.
  - reflexivity.
  - reflexivity.
  - intros r1 r2 r3 Hcs. rewrite get_conversations_run, Hcs. reflexivity.
Qed.

Lemma get_conversations_page_witness :
  0 <= 1 /\ 0 <= 1
  /\ fst (get_conversations (ArgInt 1) (ArgInt 1) (holding (sample_history 3)))
     = Ok (page_reply (len (loaded (file (holding (sample_history 3))))) 1 1
             (take (Z.to_nat 1) (drop (Z.to_nat 1)
                (loaded (file (holding (sample_history 3))))))).
Proof.
  split; [lia|]. split; [lia|].
  apply (proj1 (get_conversations_page (holding (sample_history 3))) 1 1); lia.
Defined.

Lemma last_retained cs new :
  Conv.id new = len cs + 1 ->
  last (retained (cs ++ [new])) = Some (Conv.set_id (final_id cs) new).
Proof.
  intros Hid. unfold final_id.
  assert (Hall : length (cs ++ [new]) = S (length cs))
    by (rewrite length_app; simpl; lia).
  destruct (Z.le_gt_cases (len (cs ++ [new])) 100) as [H|H]; unfold len in *.
  - rewrite retained_small by done. rewrite last_snoc. f_equal.
    rewrite Z.min_l by lia. by rewrite <- Hid, set_id_same.
  - rewrite last_lookup, length_retained, retained_large by done.
    rewrite Hall. replace (pred (S (length cs) `min` 100)) with 99%nat by lia.
    rewrite renumber_from_lookup, lookup_drop.
    rewrite (list_lookup_middle cs [] new) by lia. simpl. do 2 f_equal. lia.
Qed.

(** A 200 response whose text can be read, followed by a successful write:
    the record stored last holds that text and its length, and its id is the
    one reported. *)
Lemma generate_text_stores cfg ev get_json m prompt decoded text :
  prompt_of get_json = Ok prompt ->
  backend ev (post_of cfg prompt) = Responds 200 decoded ->
  generated_text_of decoded = Ok text ->
  disk ev = Written ->
  exists c cs',
    file (snd (generate_text cfg ev get_json m)) = Stored cs'
    /\ last cs' = Some c
    /\ Conv.response c = text
    /\ Conv.response_length c = len_str text
    /\ fst (generate_text cfg ev get_json m)
       = Ok (success_reply cfg text (JNum (Conv.id c))).
Proof.
  intros Hp Hb Hd Hw. gateway_run Hp.
  rewrite Hb. simpl. rewrite Hd, Hw. simpl.
  eexists _, _. split; [reflexivity|].
  split; [by apply last_retained|]. done.
Qed.

(** ** The claims about the gateway's records *)

(** C6. Whatever requests a fresh deployment has served, every stored
    record has [response_length] equal to the length of its [response]; after
    a successful generation the record stored last holds the backend's text
    stripped of surrounding white space; and the request [{"prompt": "Hi"}]
    answered by the backend with [" Hello! "] on an empty history stores
    ["Hello!"] with length 6 and reports conversation id 1. *)
Theorem response_length_recorded :
  (forall cfg rqs, lengths_recorded (loaded (file (snd (serve cfg rqs fresh)))))
  /\ (forall cfg ev get_json m prompt fields text,
        prompt_of get_json = Ok prompt ->
        backend ev (post_of cfg prompt) = Responds 200 (Ok (JObj fields)) ->
        dict_lookup "response" fields = Some (JStr text) ->
        disk ev = Written ->
        exists c cs',
          file (snd (generate_text cfg ev get_json m)) = Stored cs'
          /\ last cs' = Some c
          /\ Conv.response c = strip text
          /\ Conv.response_length c = len_str (strip text)
          /\ fst (generate_text cfg ev get_json m)
             = Ok (success_reply cfg (strip text) (JNum (Conv.id c))))
  /\ generate_text sample_cfg (sample_env hello_backend Written) hi_request fresh
     = (Ok (success_reply sample_cfg "Hello!" (JNum 1)),
        {| heap := [hello_record];
           file := Stored [hello_record];
           posts := [post_of sample_cfg (JStr "Hi")] |})
  /\ generate_text sample_cfg (sample_env hello_backend Written) hi_request (holding [])
     = (Ok (success_reply sample_cfg "Hello!" (JNum 1)),
        {| heap := [hello_record];
           file := Stored [hello_record];
           posts := [post_of sample_cfg (JStr "Hi")] |})
  /\ Conv.response_length hello_record = 6.
Proof.
  split; [|split; [|split; [|split]]].
  - intros cfg rqs. apply served_well_kept.
  - intros cfg ev get_json m prompt fields text Hp Hb Hf Hw.
    apply (generate_text_stores cfg ev get_json m prompt (Ok (JObj fields)));
      try done.
    simpl. by rewrite Hf.
  - reflexivity.
  - reflexivity.
  - reflexivity.
Qed.

Lemma response_length_recorded_witness :
  prompt_of hi_request = Ok (JStr "Hi")
  /\ backend (sample_env hello_backend Written) (post_of sample_cfg (JStr "Hi"))
     = Responds 200 (Ok (JObj [("response", JStr " Hello! ")]))
  /\ dict_lookup "response" [("response", JStr " Hello! ")] = Some (JStr " Hello! ")
  /\ disk (sample_env hello_backend Written) = Written
  /\ exists c cs',
       file (snd (generate_text sample_cfg (sample_env hello_backend Written)
                    hi_request fresh)) = Stored cs'
       /\ last cs' = Some c
       /\ Conv.response c = strip " Hello! "
       /\ Conv.response_length c = len_str (strip " Hello! ")
       /\ fst (generate_text sample_cfg (sample_env hello_backend Written)
                 hi_request fresh)
          = Ok (success_reply sample_cfg (strip " Hello! ") (JNum (Conv.id c))).
Proof.
  split; [reflexivity|]. split; [reflexivity|]. split; [reflexivity|].
  split; [reflexivity|].
  apply (proj1 (proj2 response_length_recorded) sample_cfg
           (sample_env hello_backend Written) hi_request fresh (JStr "Hi")
           [("response", JStr " Hello! ")] " Hello! ");
    reflexivity.
Defined.





(** ** Further properties of the log *)

Lemma retained_content all :
  content <$> retained all = content <$> drop (length all - 100) all.
Proof.
  destruct (Z.le_gt_cases (len all) 100) as [H|H].
  - rewrite retained_small by done. unfold len in H.
    by replace (length all - 100)%nat with 0%nat by lia.
  - rewrite retained_large by done. apply renumber_from_content.
Qed.

(** X1. Whatever the file held, a successful append leaves the most recent
    records only: the new record comes last, at most 100 records are kept,
    the ones dropped are the oldest, and the content of every record kept is
    as it was. *)
Theorem add_conversation_keeps_most_recent ev prompt response model_name m :
  disk ev = Written ->
  exists l m' cs',
    add_conversation ev prompt response model_name m = (Ok (Some l), m')
    /\ file m' = Stored cs'
    /\ length cs' = (S (length (loaded (file m))) `min` 100)%nat
    /\ content <$> cs'
       = content <$> drop (S (length (loaded (file m))) - 100)
                       (loaded (file m)
                        ++ [new_conversation ev prompt response model_name
                              (loaded (file m))])
    /\ posts m' = posts m.
Proof.
  intros Hw. rewrite add_conversation_run, Hw.
  set (cs := loaded (file m)).
  set (all := cs ++ [new_conversation ev prompt response model_name cs]).
  assert (Hall : length all = S (length cs))
    by (unfold all; rewrite length_app; simpl; lia).
  eexists _, _, (retained all). split; [reflexivity|].
  split; [reflexivity|]. split; [by rewrite length_retained, Hall|].
  split; [by rewrite retained_content, Hall|reflexivity].
Qed.

Lemma add_conversation_keeps_most_recent_witness :
  disk (sample_env hello_backend Written) = Written
  /\ exists l m' cs',
       add_conversation (sample_env hello_backend Written) (JStr "Hi") "Hello!"
         "llama3.2:3b" (holding (sample_history 120)) = (Ok (Some l), m')
       /\ file m' = Stored cs'
       /\ length cs'
          = (S (length (loaded (file (holding (sample_history 120))))) `min` 100)%nat
       /\ content <$> cs'
          = content <$> drop (S (length (loaded (file (holding (sample_history 120))))) - 100)
                          (loaded (file (holding (sample_history 120)))
                           ++ [new_conversation (sample_env hello_backend Written)
                                 (JStr "Hi") "Hello!" "llama3.2:3b"
                                 (loaded (file (holding (sample_history 120))))])
       /\ posts m' = posts (holding (sample_history 120)).
Proof.
  split; [reflexivity|].
  apply (add_conversation_keeps_most_recent (sample_env hello_backend Written)
           (JStr "Hi") "Hello!" "llama3.2:3b" (holding (sample_history 120))).
  reflexivity.
Defined.

(** X2. The ids are rewritten only when the cap is passed.  With 100 or more
    records loaded, the records written carry the ids 1..100 whatever ids were
    stored before; with fewer, the stored ids are written back as they were
    and the new record gets the count plus one, so a gap or a repeated id in
    the file stays. *)
Theorem add_conversation_renumbers_only_at_cap ev prompt response model_name m :
  disk ev = Written ->
  exists cs',
    file (snd (add_conversation ev prompt response model_name m)) = Stored cs'
    /\ ((100 <= length (loaded (file m)))%nat -> Conv.id <$> cs' = seqZ 1 100)
    /\ ((length (loaded (file m)) < 100)%nat ->
        Conv.id <$> cs'
        = (Conv.id <$> loaded (file m)) ++ [len (loaded (file m)) + 1]).
Proof.
  intros Hw. rewrite add_conversation_run, Hw.
  set (cs := loaded (file m)).
  set (all := cs ++ [new_conversation ev prompt response model_name cs]).
  assert (Hall : length all = S (length cs))
    by (unfold all; rewrite length_app; simpl; lia).
  exists (retained all). split; [reflexivity|]. split.
  - intros Hfull. rewrite retained_large by (unfold len; lia).
    rewrite renumber_from_ids. unfold len. rewrite length_drop.
    f_equal. lia.
  - intros Hroom. rewrite retained_small by (unfold len; lia).
    unfold all. by rewrite fmap_app.
Qed.

Lemma add_conversation_renumbers_only_at_cap_witness :
  disk (sample_env hello_backend Written) = Written
  /\ (length (loaded (file (holding gapped_history))) < 100)%nat
  /\ exists cs',
       file (snd (add_conversation (sample_env hello_backend Written) (JStr "Hi")
                    "Hello!" "llama3.2:3b" (holding gapped_history))) = Stored cs'
       /\ Conv.id <$> cs' = [7; 9; 3].
Proof.
  split; [reflexivity|]. split; [simpl; lia|].
  destruct (add_conversation_renumbers_only_at_cap (sample_env hello_backend Written)
              (JStr "Hi") "Hello!" "llama3.2:3b" (holding gapped_history) eq_refl)
    as (cs' & Hfile & _ & Hroom).
  exists cs'. split; [exact Hfile|]. apply Hroom. simpl; lia.
Defined.

(** X3. A storage file that cannot be read or decoded is not kept aside:
    [load_conversations] swallows the failure, so the next successful append
    replaces the file by a history of one record, numbered 1. *)
Theorem unreadable_storage_is_replaced ev prompt response model_name m e :
  file m = Unreadable e \/ file m = Malformed e ->
  disk ev = Written ->
  exists l m',
    add_conversation ev prompt response model_name m = (Ok (Some l), m')
    /\ file m' = Stored [new_conversation ev prompt response model_name []]
    /\ Conv.id (deref (heap m') l) = 1.
Proof.
  intros Hf Hw. rewrite add_conversation_run, Hw.
  assert (Hcs : loaded (file m) = []) by (destruct Hf as [-> | ->]; reflexivity).
  rewrite Hcs. simpl app. rewrite retained_small by (unfold len; simpl; lia).
  eexists _, _. split; [reflexivity|]. split; [reflexivity|].
  simpl heap.
  pose proof (returned_record (heap m) []
                (new_conversation ev prompt response model_name []) eq_refl) as Hr.
  simpl in Hr. rewrite retained_small in Hr by (unfold len; simpl; lia).
  simpl length. by rewrite Hr.
Qed.

Lemma unreadable_storage_is_replaced_witness :
  (file {| heap := []; file := Unreadable (Exception "Permission denied"); posts := [] |}
   = Unreadable (Exception "Permission denied")
   \/ file {| heap := []; file := Unreadable (Exception "Permission denied"); posts := [] |}
      = Malformed (Exception "Permission denied"))
  /\ disk (sample_env hello_backend Written) = Written
  /\ exists l m',
       add_conversation (sample_env hello_backend Written) (JStr "Hi") "Hello!"
         "llama3.2:3b"
         {| heap := []; file := Unreadable (Exception "Permission denied"); posts := [] |}
       = (Ok (Some l), m')
       /\ file m' = Stored [new_conversation (sample_env hello_backend Written)
                              (JStr "Hi") "Hello!" "llama3.2:3b" []]
       /\ Conv.id (deref (heap m') l) = 1.
Proof.
  split; [left; reflexivity|]. split; [reflexivity|].
  apply (unreadable_storage_is_replaced (sample_env hello_backend Written)
           (JStr "Hi") "Hello!" "llama3.2:3b"
           {| heap := []; file := Unreadable (Exception "Permission denied"); posts := [] |}
           (Exception "Permission denied"));
    [left; reflexivity | reflexivity].
Defined.

(** ** Further properties of the gateway *)

(** X4. [generate_text] never lets an exception out: whatever the request,
    the backend and the disk do, it returns a reply, either the success
    document under status 200 or the error document under status 500. *)
Theorem generate_text_always_answers cfg ev get_json m :
  exists r,
    fst (generate_text cfg ev get_json m) = Ok r
    /\ ((status r = 200 /\ reply_status r = Some (JStr "success"))
        \/ (status r = 500 /\ reply_status r = Some (JStr "error"))).
Proof.
  rewrite generate_text_run.
  destruct (prompt_of get_json) as [prompt|e]; [|eexists; split; [reflexivity|by right]].
  cbv zeta.
  destruct (backend ev _) as [e|code decoded]; [eexists; split; [reflexivity|by right]|].
  destruct (code =? 200); [|eexists; split; [reflexivity|by right]].
  destruct (generated_text_of decoded) as [text|e];
    [|eexists; split; [reflexivity|by right]].
  destruct (disk ev); eexists; (split; [reflexivity|by left]).
Qed.



(** X6. The prompt goes out as it came in.  A prompt that is a string of
    characters below code point 256, of any length, or a list is put
    unchanged into the one call made to the backend (the cut to 50 characters
    only serves the log line), and when the backend answers with a text and
    the write succeeds, the record stored last holds that same prompt, the
    configured model name and the time of the clock. *)
Theorem prompt_sent_and_stored_as_given cfg ev fields v m :
  dict_lookup "prompt" fields = Some v ->
  (exists s, v = JStr s) \/ (exists items, v = JArr items) ->
  posts (snd (generate_text cfg ev (Ok (JObj fields)) m))
  = posts m ++ [post_of cfg v]
  /\ payload_field "prompt" (post_of cfg v) = Some v
  /\ (forall decoded text,
        backend ev (post_of cfg v) = Responds 200 decoded ->
        generated_text_of decoded = Ok text ->
        disk ev = Written ->
        exists c cs',
          file (snd (generate_text cfg ev (Ok (JObj fields)) m)) = Stored cs'
          /\ last cs' = Some c
          /\ Conv.prompt c = v
          /\ Conv.model c = MODEL_NAME cfg
          /\ Conv.timestamp c = now_isoformat ev).
Proof.
  intros Hv Hshape.
  assert (Hp : prompt_of (Ok (JObj fields)) = Ok v).
  { unfold prompt_of. destruct fields as [|kv fields]; [done|].
    simpl truthy. cbv iota. unfold get_method. rewrite Hv.
    by destruct Hshape as [[s ->]|[items ->]]. }
  split; [by apply generate_text_posts|]. split; [reflexivity|].
  intros decoded text Hb Hd Hw. gateway_run Hp. rewrite Hb. simpl.
  rewrite Hd, Hw. simpl.
  eexists _, _. split; [reflexivity|].
  split; [by apply last_retained|]. done.
Qed.

Lemma prompt_sent_and_stored_as_given_witness :
  dict_lookup "prompt" [("prompt", JArr [JStr "a"; JNum 1])]
  = Some (JArr [JStr "a"; JNum 1])
  /\ ((exists s, JArr [JStr "a"; JNum 1] = JStr s)
      \/ (exists items, JArr [JStr "a"; JNum 1] = JArr items))
  /\ posts (snd (generate_text sample_cfg (sample_env hello_backend Written)
                   (Ok (JObj [("prompt", JArr [JStr "a"; JNum 1])])) fresh))
     = posts fresh ++ [post_of sample_cfg (JArr [JStr "a"; JNum 1])].
Proof.
  assert (Hshape : (exists s, JArr [JStr "a"; JNum 1] = JStr s)
                   \/ (exists items, JArr [JStr "a"; JNum 1] = JArr items))
    by (right; eexists; reflexivity).
  split; [reflexivity|]. split; [exact Hshape|].
  exact (proj1 (prompt_sent_and_stored_as_given sample_cfg
                  (sample_env hello_backend Written)
                  [("prompt", JArr [JStr "a"; JNum 1])] (JArr [JStr "a"; JNum 1])
                  fresh eq_refl Hshape)).
Defined.

Lemma handle_posts cfg rq m :
  posts (snd (handle cfg rq m)) = posts m
  \/ (exists prompt,
        (exists ev get_json, rq = PostGenerate ev get_json)
        /\ posts (snd (handle cfg rq m)) = posts m ++ [post_of cfg prompt]).
Proof.
  destruct rq as [|ev get_json|limit_arg offset_arg|conversation_id]; simpl.
  - unfold health, bind. rewrite load_conversations_run. by left.
  - destruct (prompt_of get_json) as [prompt|e] eqn:Hp.
    + right. exists prompt. split; [eauto|]. by apply generate_text_posts.
    + left. by rewrite generate_text_run, Hp.
  - rewrite get_conversations_run. by left.
  - rewrite get_conversation_run. by left.
Qed.

Lemma post_of_well_formed cfg prompt : well_formed_call cfg (post_of cfg prompt).
Proof. repeat split. by eexists. Qed.

Lemma serve_posts cfg rqs : forall m,
  exists sent,
    posts (snd (serve cfg rqs m)) = posts m ++ sent
    /\ (length sent <= generations rqs)%nat
    /\ Forall (well_formed_call cfg) sent.
Proof.
  induction rqs as [|rq rqs IH]; intros m.
  - exists []. simpl. by rewrite app_nil_r.
  - simpl. pose proof (handle_posts cfg rq m) as Hh.
    destruct (handle cfg rq m) as [r m1]. simpl in Hh.
    destruct (IH m1) as (sent & Hs & Hn & Hwf).
    destruct (serve cfg rqs m1) as [rs m2]. simpl in *.
    destruct Hh as [Hsame|(prompt & (ev & get_json & ->) & Hone)].
    + exists sent. rewrite Hs, Hsame. split; [done|]. split; [|done].
      destruct rq; simpl; lia.
    + exists (post_of cfg prompt :: sent). rewrite Hs, Hone, <- app_assoc.
      split; [done|]. split; [simpl; lia|].
      constructor; [apply post_of_well_formed|done].
Qed.

(** X7. No retry and no stray call: over any sequence of requests there are
    never more calls to the backend than [POST /generate] requests, and each
    call goes to [OLLAMA_HOST/api/generate] with a timeout of 180, the
    configured model, streaming switched off and a prompt. *)
Theorem backend_called_at_most_once_per_generation cfg rqs :
  (length (posts (snd (serve cfg rqs fresh))) <= generations rqs)%nat
  /\ Forall (well_formed_call cfg) (posts (snd (serve cfg rqs fresh))).
Proof.
  destruct (serve_posts cfg rqs fresh) as (sent & Hs & Hn & Hwf).
  rewrite Hs. simpl. done.
Qed.

(** ** Further properties of the reading handlers *)

Lemma first_with_id_none conversation_id cs :
  (forall c, c ∈ cs -> Conv.id c <> conversation_id) ->
  first_with_id conversation_id cs = None.
Proof.
  induction cs as [|c cs IH]; intros Hno; [done|]. simpl.
  destruct (Z.eqb_spec (Conv.id c) conversation_id) as [Heq|_].
  - destruct (Hno c); [by left|done].
  - apply IH. intros c' Hc'. apply Hno. by right.
Qed.

Lemma first_with_id_first conversation_id before c after :
  (forall c', c' ∈ before -> Conv.id c' <> conversation_id) ->
  Conv.id c = conversation_id ->
  first_with_id conversation_id (before ++ c :: after) = Some c.
Proof.
  intros Hno Hc. induction before as [|b before IH]; simpl.
  - by rewrite Hc, Z.eqb_refl.
  - destruct (Z.eqb_spec (Conv.id b) conversation_id) as [Heq|_].
    + destruct (Hno b); [by left|done].
    + apply IH. intros c' Hc'. apply Hno. by right.
Qed.

(** X8. Whatever ids the file holds, [get_conversation] answers not-found
    exactly when no stored record carries the requested id, and otherwise
    answers with the first record in stored order that carries it, so of
    two records with the same id only the earlier one can be fetched. *)
Theorem get_conversation_first_match m conversation_id :
  ((forall c, c ∈ loaded (file m) -> Conv.id c <> conversation_id) ->
   fst (get_conversation conversation_id m) = Ok (not_found_reply conversation_id))
  /\ (forall before c after,
        loaded (file m) = before ++ c :: after ->
        (forall c', c' ∈ before -> Conv.id c' <> conversation_id) ->
        Conv.id c = conversation_id ->
        fst (get_conversation conversation_id m) = Ok (found_reply c)).
Proof.
  split.
  - intros Hno. rewrite get_conversation_run. simpl.
    by rewrite first_with_id_none.
  - intros before c after Hcs Hno Hc. rewrite get_conversation_run, Hcs. simpl.
    by rewrite first_with_id_first.
Qed.

Lemma get_conversation_first_match_witness :
  loaded (file (holding [sample_record 1; sample_record 2;
                          Conv.set_id 2 (sample_record 5)]))
  = [sample_record 1] ++ sample_record 2 :: [Conv.set_id 2 (sample_record 5)]
  /\ (forall c', c' ∈ [sample_record 1] -> Conv.id c' <> 2)
  /\ Conv.id (sample_record 2) = 2
  /\ fst (get_conversation 2
            (holding [sample_record 1; sample_record 2;
                      Conv.set_id 2 (sample_record 5)]))
     = Ok (found_reply (sample_record 2)).
Proof.
  assert (Hno : forall c', c' ∈ [sample_record 1] -> Conv.id c' <> 2).
  { intros c' Hc'. apply list_elem_of_singleton in Hc'. subst c'. discriminate. }
  split; [reflexivity|]. split; [exact Hno|]. split; [reflexivity|].
  exact (proj2 (get_conversation_first_match
                  (holding [sample_record 1; sample_record 2;
                            Conv.set_id 2 (sample_record 5)]) 2)
           [sample_record 1] (sample_record 2) [Conv.set_id 2 (sample_record 5)]
           eq_refl Hno eq_refl).
Defined.




(** X10. Ids move when the cap is passed.  With 100 records stored under the
    ids 1..100, after one more successful append each id k from 1 to 99
    fetches the record that id k+1 fetched before, its content unchanged: an
    id kept by a client no longer names the same conversation. *)
Theorem ids_shift_at_capacity ev prompt response model_name m k :
  dense_ids (loaded (file m)) ->
  length (loaded (file m)) = 100%nat ->
  disk ev = Written ->
  1 <= k <= 99 ->
  exists c_old c_new,
    fst (get_conversation (k + 1) m) = Ok (found_reply c_old)
    /\ fst (get_conversation k (snd (add_conversation ev prompt response model_name m)))
       = Ok (found_reply c_new)
    /\ Conv.id c_old = k + 1
    /\ Conv.id c_new = k
    /\ content c_new = content c_old.
Proof.
  intros Hdense Hlen Hw Hk.
  set (cs := loaded (file m)) in *.
  destruct (lookup_lt_is_Some_2 cs (Z.to_nat k)) as [c Hc]; [lia|].
  pose proof (dense_ids_lookup _ _ _ Hdense Hc) as Hidc.
  exists c, (Conv.set_id k c).
  rewrite add_conversation_run, Hw. cbn [snd].
  rewrite !get_conversation_run. cbn [fst file set_file set_heap loaded].
  fold cs.
  set (all := cs ++ [new_conversation ev prompt response model_name cs]).
  assert (Hall : length all = 101%nat)
    by (unfold all; rewrite length_app, Hlen; reflexivity).
  assert (Hret : retained all = renumber_from 0 (drop 1 all)).
  { rewrite retained_large by (unfold len; lia). by rewrite Hall. }
  assert (Hnew_ids : Conv.id <$> retained all = seqZ 1 (len (retained all))).
  { rewrite Hret, renumber_from_ids. unfold len.
    by rewrite length_renumber_from. }
  rewrite (first_with_id_dense _ _ 1 Hdense).
  rewrite (first_with_id_dense _ _ 1 Hnew_ids).
  unfold len. rewrite length_retained, Hall, Hlen.
  rewrite !decide_True by lia.
  replace (Z.to_nat (k + 1 - 1)) with (Z.to_nat k) by lia. rewrite Hc.
  rewrite Hret, renumber_from_lookup, lookup_drop.
  replace (1 + Z.to_nat (k - 1))%nat with (Z.to_nat k) by lia.
  unfold all. rewrite lookup_app_l by lia. rewrite Hc. simpl.
  replace (0 + Z.of_nat (Z.to_nat (k - 1)) + 1) with k by lia.
  split; [done|]. split; [done|]. split; [lia|]. split; [done|]. by destruct c.
Qed.

Lemma ids_shift_at_capacity_witness :
  dense_ids (loaded (file (holding (sample_history 100))))
  /\ length (loaded (file (holding (sample_history 100)))) = 100%nat
  /\ disk (sample_env hello_backend Written) = Written
  /\ 1 <= 42 <= 99
  /\ exists c_old c_new,
       fst (get_conversation (42 + 1) (holding (sample_history 100)))
       = Ok (found_reply c_old)
       /\ fst (get_conversation 42
                 (snd (add_conversation (sample_env hello_backend Written)
                         (JStr "Hi") "Hello!" "llama3.2:3b"
                         (holding (sample_history 100)))))
          = Ok (found_reply c_new)
       /\ Conv.id c_old = 42 + 1
       /\ Conv.id c_new = 42
       /\ content c_new = content c_old.
Proof.
  split; [reflexivity|]. split; [reflexivity|]. split; [reflexivity|].
  split; [lia|].
  apply (ids_shift_at_capacity (sample_env hello_backend Written) (JStr "Hi")
           "Hello!" "llama3.2:3b" (holding (sample_history 100)) 42);
    [reflexivity | reflexivity | reflexivity | lia].
Defined.

(** X11. The size of a page.  For non-negative limit and offset the page
    holds exactly min(limit, count - offset) records, none when the offset is
    at or past the count (the total still being the full count), and never
    more than the limit. *)
Theorem page_size m limit offset :
  0 <= limit -> 0 <= offset ->
  exists page,
    fst (get_conversations (ArgInt limit) (ArgInt offset) m)
    = Ok (page_reply (len (loaded (file m))) limit offset page)
    /\ len page = Z.max 0 (Z.min limit (len (loaded (file m)) - offset))
    /\ len page <= limit
    /\ (len (loaded (file m)) <= offset -> page = []).
Proof.
  intros Hl Ho. rewrite get_conversations_run. cbn [fst args_get].
  rewrite py_slice_window by done.
  eexists. split; [reflexivity|].
  assert (Hlen : len (take (Z.to_nat limit) (drop (Z.to_nat offset) (loaded (file m))))
                 = Z.max 0 (Z.min limit (len (loaded (file m)) - offset))).
  { unfold len. rewrite length_take, length_drop. lia. }
  split; [exact Hlen|]. split; [rewrite Hlen; lia|].
  intros Hpast. unfold len in Hpast. rewrite drop_ge by lia. by rewrite take_nil.
Qed.

Lemma page_size_witness :
  0 <= 20 /\ 0 <= 2
  /\ exists page,
       fst (get_conversations (ArgInt 20) (ArgInt 2) (holding (sample_history 3)))
       = Ok (page_reply (len (loaded (file (holding (sample_history 3))))) 20 2 page)
       /\ len page
          = Z.max 0 (Z.min 20 (len (loaded (file (holding (sample_history 3)))) - 2))
       /\ len page <= 20
       /\ (len (loaded (file (holding (sample_history 3)))) <= 2 -> page = []).
Proof.
  split; [lia|]. split; [lia|].
  apply (page_size (holding (sample_history 3)) 20 2); lia.
Defined.

(** X12. Pages tile the history.  For non-negative offset and limits, the
    page at [offset] of [limit1] records followed by the page at
    [offset + limit1] of [limit2] records is the page at [offset] of
    [limit1 + limit2] records: walking the pages in steps of the limit meets
    every record once, in stored order. *)
Theorem consecutive_pages_join m offset limit1 limit2 :
  0 <= offset -> 0 <= limit1 -> 0 <= limit2 ->
  exists page1 page2,
    fst (get_conversations (ArgInt limit1) (ArgInt offset) m)
    = Ok (page_reply (len (loaded (file m))) limit1 offset page1)
    /\ fst (get_conversations (ArgInt limit2) (ArgInt (offset + limit1)) m)
       = Ok (page_reply (len (loaded (file m))) limit2 (offset + limit1) page2)
    /\ fst (get_conversations (ArgInt (limit1 + limit2)) (ArgInt offset) m)
       = Ok (page_reply (len (loaded (file m))) (limit1 + limit2) offset
               (page1 ++ page2)).
Proof.
  intros Ho H1 H2. rewrite !get_conversations_run. cbn [fst args_get].
  rewrite !py_slice_window by lia.
  eexists _, _. split; [reflexivity|]. split; [reflexivity|].
  do 2 f_equal.
  replace (Z.to_nat (offset + limit1)) with (Z.to_nat offset + Z.to_nat limit1)%nat
    by lia.
  rewrite <- drop_drop, take_take_drop. f_equal. lia.
Qed.

Lemma consecutive_pages_join_witness :
  0 <= 1 /\ 0 <= 2 /\ 0 <= 2
  /\ exists page1 page2,
       fst (get_conversations (ArgInt 2) (ArgInt 1) (holding (sample_history 5)))
       = Ok (page_reply (len (loaded (file (holding (sample_history 5))))) 2 1 page1)
       /\ fst (get_conversations (ArgInt 2) (ArgInt (1 + 2)) (holding (sample_history 5)))
          = Ok (page_reply (len (loaded (file (holding (sample_history 5))))) 2 (1 + 2)
                  page2)
       /\ fst (get_conversations (ArgInt (2 + 2)) (ArgInt 1) (holding (sample_history 5)))
          = Ok (page_reply (len (loaded (file (holding (sample_history 5))))) (2 + 2) 1
                  (page1 ++ page2)).
Proof.
  split; [lia|]. split; [lia|]. split; [lia|].
  apply (consecutive_pages_join (holding (sample_history 5)) 1 2 2); lia.
Defined.

(** X13. A negative limit is not refused.  With a non-negative offset and a
    limit so negative that offset + limit is below zero, the end of the slice
    counts from the end of the history: the page runs from the offset up to,
    but without, the last -(offset + limit) records, that is count + limit
    records at most. *)
Theorem negative_limit_cuts_from_the_end m limit offset :
  0 <= offset -> offset + limit < 0 ->
  fst (get_conversations (ArgInt limit) (ArgInt offset) m)
  = Ok (page_reply (len (loaded (file m))) limit offset
          (take (Z.to_nat (len (loaded (file m)) + limit))
             (drop (Z.to_nat offset) (loaded (file m))))).
Proof.
  intros Ho Hneg. rewrite get_conversations_run. cbn [fst args_get].
  do 2 f_equal. unfold py_slice, slice_bound, len.
  set (n := length (loaded (file m))).
  destruct (Z.ltb_spec offset 0); [lia|].
  destruct (Z.ltb_spec (offset + limit) 0); [|lia].
  destruct (Z.le_gt_cases (Z.of_nat n) offset) as [Hout|Hin].
  - rewrite Z.min_r by lia.
    rewrite (drop_ge _ (Z.to_nat (Z.of_nat n))) by (fold n; lia).
    rewrite (drop_ge _ (Z.to_nat offset)) by (fold n; lia).
    by rewrite !take_nil.
  - rewrite Z.min_l by lia. f_equal. lia.
Qed.

Lemma negative_limit_cuts_from_the_end_witness :
  0 <= 0 /\ 0 + -1 < 0
  /\ fst (get_conversations (ArgInt (-1)) (ArgInt 0) (holding (sample_history 3)))
     = Ok (page_reply (len (loaded (file (holding (sample_history 3))))) (-1) 0
             (take (Z.to_nat (len (loaded (file (holding (sample_history 3)))) + -1))
                (drop (Z.to_nat 0) (loaded (file (holding (sample_history 3))))))).
Proof.
  split; [lia|]. split; [lia|].
  apply (negative_limit_cuts_from_the_end (holding (sample_history 3)) (-1) 0); lia.
Defined.

(** ** Further properties of the service as a whole *)

Lemma health_run cfg m :
  health cfg m
  = (Ok (health_reply cfg (len (loaded (file m)))),
     set_heap (heap m ++ loaded (file m)) m).
Proof.
  unfold health, bind. rewrite load_conversations_run. unfold ret.
  by rewrite len_seq.
Qed.


(** X15. However many requests of whatever kind a fresh deployment has
    served, with whatever failures of the backend and of the disk, the file
    never yields more than 100 records. *)
Theorem retention_bound_holds cfg rqs :
  (length (loaded (file (snd (serve cfg rqs fresh)))) <= 100)%nat.
Proof. by destruct (served_well_kept cfg rqs) as (_ & _ & Hcap). Qed.

(** *** The text kept is stripped *)

Lemma lstrip_head s :
  lstrip s = EmptyString
  \/ exists c rest, lstrip s = String c rest /\ isspace c = false.
Proof.
  induction s as [|c s IH]; simpl; [by left|].
  destruct (isspace c) eqn:Hc; [exact IH|]. right. by exists c, s.
Qed.

Lemma rstrip_rstrip s : rstrip (rstrip s) = rstrip s.
Proof.
  induction s as [|c s IH]; [done|]. simpl.
  destruct (rstrip s) as [|k kept] eqn:Hr.
  - destruct (isspace c) eqn:Hc; [done|]. simpl. by rewrite Hc.
  - change (rstrip (String c (String k kept))) with
      (match rstrip (String k kept) with
       | EmptyString => if isspace c then EmptyString else String c EmptyString
       | kept' => String c kept'
       end).
    by rewrite IH.
Qed.

Lemma lstrip_rstrip_lstrip s : lstrip (rstrip (lstrip s)) = rstrip (lstrip s).
Proof.
  destruct (lstrip_head s) as [->|(c & rest & -> & Hc)]; [done|].
  simpl. destruct (rstrip rest); rewrite ?Hc; simpl; by rewrite ?Hc.
Qed.

Lemma strip_strip s : strip (strip s) = strip s.
Proof. unfold strip. by rewrite lstrip_rstrip_lstrip, rstrip_rstrip. Qed.

Lemma generated_text_stripped decoded text :
  generated_text_of decoded = Ok text -> strip text = text.
Proof.
  unfold generated_text_of. destruct decoded as [result|e]; [|done].
  destruct (get_method result "response" (JStr "")) as [v|e]; [|done].
  destruct v; simpl; try done. intros [= <-]. apply strip_strip.
Qed.

Lemma responses_stripped_renumber i cs :
  responses_stripped cs -> responses_stripped (renumber_from i cs).
Proof.
  unfold responses_stripped. intros H. revert i.
  induction H as [|c cs Hc _ IH]; intros i; simpl; constructor; auto.
Qed.

Lemma responses_stripped_appended ev prompt text model_name cs :
  strip text = text ->
  responses_stripped cs ->
  responses_stripped (appended ev prompt text model_name cs).
Proof.
  intros Ht Hcs. unfold appended.
  set (all := cs ++ [new_conversation ev prompt text model_name cs]).
  assert (Hall : responses_stripped all).
  { apply Forall_app. split; [done|]. by constructor. }
  destruct (Z.le_gt_cases (len all) 100).
  - by rewrite retained_small.
  - rewrite retained_large by done.
    apply responses_stripped_renumber. by apply Forall_drop.
Qed.

Lemma handle_responses_stripped cfg rq m :
  responses_stripped (loaded (file m)) ->
  responses_stripped (loaded (file (snd (handle cfg rq m)))).
Proof.
  intros Hm.
  destruct rq as [|ev get_json|limit_arg offset_arg|conversation_id]; simpl.
  - by rewrite health_run.
  - rewrite generate_text_run.
    destruct (prompt_of get_json) as [prompt|e]; [|done]. cbv zeta.
    destruct (backend ev _) as [e|code decoded]; [done|].
    destruct (code =? 200); [|done].
    destruct (generated_text_of decoded) as [text|e] eqn:Hd; [|done].
    apply generated_text_stripped in Hd.
    destruct (disk ev); simpl; [|done|constructor].
    by apply responses_stripped_appended.
  - by rewrite get_conversations_run.
  - by rewrite get_conversation_run.
Qed.

Lemma serve_responses_stripped cfg rqs : forall m,
  responses_stripped (loaded (file m)) ->
  responses_stripped (loaded (file (snd (serve cfg rqs m)))).
Proof.
  induction rqs as [|rq rqs IH]; intros m Hm; [done|].
  simpl. pose proof (handle_responses_stripped cfg rq m Hm) as H1.
  destruct (handle cfg rq m) as [r m1]. specialize (IH m1 H1).
  by destruct (serve cfg rqs m1).
Qed.

(** X16. Every response the service has stored is stripped: over any
    sequence of requests served from a fresh deployment, applying [strip] to
    a stored response gives it back unchanged, so no stored response begins
    or ends with white space, however the file was trimmed and renumbered
    since. *)
Theorem stored_responses_are_stripped cfg rqs :
  responses_stripped (loaded (file (snd (serve cfg rqs fresh)))).
Proof. apply serve_responses_stripped. constructor. Qed.

(** *** The page of recent conversations *)

Lemma py_slice_last_10 {A} (l : list A) :
  py_slice (Some (-10)) None l = drop (length l - 10) l.
Proof.
  unfold py_slice, slice_bound, len. simpl.
  replace (Z.to_nat (Z.max (-10 + Z.of_nat (length l)) 0))
    with (length l - 10)%nat by lia.
  apply take_ge. rewrite length_drop. lia.
Qed.

Lemma web_interface_run cfg m :
  web_interface cfg m
  = (Ok {| page_model_name := MODEL_NAME cfg;
           page_total := len (loaded (file m));
           page_rows :=
             row_of <$> reverse (drop (length (loaded (file m)) - 10) (loaded (file m)));
           page_notice := match loaded (file m) with [] => true | _ => false end |},
     set_heap (heap m ++ loaded (file m)) m).
Proof.
  unfold web_interface. unfold bind at 1. rewrite load_conversations_run.
  unfold bind, read_dicts, ret. cbn [heap set_heap].
  rewrite fmap_reverse, fmap_py_slice.
  pose proof (deref_fmap_seq (heap m) (loaded (file m)) []) as Hd.
  rewrite app_nil_r in Hd. rewrite Hd, py_slice_last_10, len_seq.
  destruct (loaded (file m)) as [|c cs]; reflexivity.
Qed.

Lemma get_replace_char old new s : forall k : nat,
  String.get k (replace_char old new s)
  = (fun ch => if Ascii.eqb ch old then new else ch) <$> String.get k s.
Proof.
  induction s as [|c s IH]; intros [|k]; simpl; try done.
Qed.

Lemma row_of_shows_time c : shows_time (Conv.timestamp c) (row_time (row_of c)).
Proof.
  intros k. simpl. rewrite get_replace_char.
  destruct (Nat.ltb_spec k 19) as [Hk|Hk].
  - by rewrite (substring_correct1 _ 0 19 k Hk), Nat.add_0_r.
  - by rewrite (substring_correct2 _ 0 19 k Hk).
Qed.

(** X17. The page of [GET /] lists the most recent conversations, newest
    first: it has min(count, 10) entries, and its entry number i (from 0)
    shows the record i places before the end of the stored list: its prompt,
    response, id, model and length, and as time the first 19 characters of
    its timestamp with [T] turned into a space.  The header shows the model
    and the full count, and the notice that nothing is stored appears exactly
    when the list is empty. *)
Theorem page_lists_most_recent_first cfg m :
  exists pg,
    fst (web_interface cfg m) = Ok pg
    /\ page_model_name pg = MODEL_NAME cfg
    /\ page_total pg = len (loaded (file m))
    /\ length (page_rows pg) = (length (loaded (file m)) `min` 10)%nat
    /\ (forall i : nat,
          (i < length (page_rows pg))%nat ->
          exists c row,
            loaded (file m) !! (length (loaded (file m)) - S i)%nat = Some c
            /\ page_rows pg !! i = Some row
            /\ row_prompt row = Conv.prompt c
            /\ row_response row = Conv.response c
            /\ row_id row = Conv.id c
            /\ row_model row = Conv.model c
            /\ row_length row = Conv.response_length c
            /\ shows_time (Conv.timestamp c) (row_time row))
    /\ (page_notice pg = true <-> loaded (file m) = []).
Proof.
  rewrite web_interface_run. eexists. split; [reflexivity|].
  cbn [page_model_name page_total page_rows page_notice].
  set (cs := loaded (file m)).
  assert (Hlen : length (row_of <$> reverse (drop (length cs - 10) cs))
                 = (length cs `min` 10)%nat).
  { rewrite length_fmap, length_reverse, length_drop. lia. }
  split; [reflexivity|]. split; [reflexivity|]. split; [exact Hlen|]. split.
  - intros i Hi. rewrite Hlen in Hi.
    destruct (lookup_lt_is_Some_2 cs (length cs - S i)) as [c Hc]; [lia|].
    exists c, (row_of c). split; [exact Hc|]. split.
    + rewrite list_lookup_fmap, reverse_lookup by (rewrite length_drop; lia).
      rewrite lookup_drop, length_drop.
      replace (length cs - 10 + (length cs - (length cs - 10) - S i))%nat
        with (length cs - S i)%nat by lia.
      by rewrite Hc.
    + repeat split. apply row_of_shows_time.
  - by destruct cs.
Qed.

Lemma page_lists_most_recent_first_witness :
  exists pg,
    fst (web_interface sample_cfg (holding (sample_history 12))) = Ok pg
    /\ length (page_rows pg) = 10%nat
    /\ exists row,
         page_rows pg !! 0%nat = Some row
         /\ row_id row = 12
         /\ row_response row = "pong".
Proof.
  destruct (page_lists_most_recent_first sample_cfg (holding (sample_history 12)))
    as (pg & Hpg & _ & _ & Hlen & Hrows & _).
  exists pg. split; [exact Hpg|]. split; [exact Hlen|].
  destruct (Hrows 0%nat) as (c & row & Hc & Hrow & _ & Hresp & Hid & _);
    [rewrite Hlen; simpl; lia|].
  exists row. split; [exact Hrow|].
  injection Hc as <-. split; [exact Hid | exact Hresp].
Defined.

(** X18. Reading changes nothing.  Whether the file is absent, cannot be
    read, cannot be decoded or holds a list of records, [GET /health],
    [GET /conversations], [GET /conversations/<id>] and [GET /] return a
    result without raising, leave the storage file as it is and send nothing
    to the backend. *)
Theorem reading_handlers_change_nothing cfg m :
  (exists r m', health cfg m = (Ok r, m')
                /\ file m' = file m /\ posts m' = posts m)
  /\ (forall limit_arg offset_arg,
        exists r m', get_conversations limit_arg offset_arg m = (Ok r, m')
                     /\ file m' = file m /\ posts m' = posts m)
  /\ (forall conversation_id,
        exists r m', get_conversation conversation_id m = (Ok r, m')
                     /\ file m' = file m /\ posts m' = posts m)
  /\ (exists pg m', web_interface cfg m = (Ok pg, m')
                    /\ file m' = file m /\ posts m' = posts m).
Proof.
  split; [|split; [|split]].
  - rewrite health_run. by eexists _, _.
  - intros la oa. rewrite get_conversations_run. by eexists _, _.
  - intros conversation_id. rewrite get_conversation_run. by eexists _, _.
  - rewrite web_interface_run. by eexists _, _.
Qed.






(** X20. A write that fails at [open] takes no id.  [add_conversation] then
    returns nothing and leaves the file untouched, and the append made next
    leaves the file exactly as it would have without the failed one: the
    record that could not be written is not numbered, kept or retried. *)
Theorem failed_open_takes_no_id ev1 prompt1 response1 model1
    ev2 prompt2 response2 model2 m e :
  disk ev1 = OpenFails e ->
  fst (add_conversation ev1 prompt1 response1 model1 m) = Ok None
  /\ file (snd (add_conversation ev1 prompt1 response1 model1 m)) = file m
  /\ file (snd (add_conversation ev2 prompt2 response2 model2
                  (snd (add_conversation ev1 prompt1 response1 model1 m))))
     = file (snd (add_conversation ev2 prompt2 response2 model2 m)).
Proof.
  intros Hfail. rewrite !add_conversation_run, Hfail. cbn [fst snd file set_heap].
  split; [done|]. split; [done|]. by destruct (disk ev2).
Qed.

Lemma failed_open_takes_no_id_witness :
  disk (sample_env hello_backend (OpenFails (Exception "read-only file system")))
  = OpenFails (Exception "read-only file system")
  /\ file (snd (add_conversation (sample_env hello_backend Written) (JStr "Hi")
                  "Hello!" "llama3.2:3b"
                  (snd (add_conversation
                          (sample_env hello_backend
                             (OpenFails (Exception "read-only file system")))
                          (JStr "lost") "gone" "llama3.2:3b"
                          (holding (sample_history 3))))))
     = file (snd (add_conversation (sample_env hello_backend Written) (JStr "Hi")
                    "Hello!" "llama3.2:3b" (holding (sample_history 3)))).
Proof.
  split; [reflexivity|].
  exact (proj2 (proj2 (failed_open_takes_no_id
                         (sample_env hello_backend
                            (OpenFails (Exception "read-only file system")))
                         (JStr "lost") "gone" "llama3.2:3b"
                         (sample_env hello_backend Written)
                         (JStr "Hi") "Hello!" "llama3.2:3b"
                         (holding (sample_history 3))
                         (Exception "read-only file system") eq_refl))).
Defined.


